(** * porkbunjs: the request pipeline of [PorkbunClient]

    A shallow embedding of [src/client.ts] and [src/errors.ts]: the client
    constructor, the credential merge, the response normalisation
    [#convertApiResponse], the error classification of [#makeRequest], the
    unauthenticated [getPricing] and the endpoint wrappers, followed by the
    properties of the specification that concern them. *)

From stdpp Require Import gmap strings list fin_maps pretty.
From Stdlib Require Import Ascii ZArith.

Set Warnings "-register-all".
Local Open Scope string_scope.
Local Open Scope Z_scope.

(** ** JavaScript values *)

(** The values the pipeline handles: what [response.json()] yields (JSON) and
    the option objects callers pass, which may also hold [undefined].
    Objects are finite maps from property names to values: a JavaScript
    object has one value per own key.  The order of keys, which only shows
    in the serialised text, is not kept.  Numbers are the integers that a
    JavaScript number holds exactly and prints in plain decimal (below 2^53
    in magnitude): the client never computes with a number, it only tests
    one for truthiness or prints one. *)
Inductive value :=
| JUndefined
| JNull
| JBool (b : bool)
| JNumber (n : Z)
| JString (s : string)
| JArray (items : list value)
| JObject (fields : gmap string value).

Module JS.

(** [s.includes(needle)] on strings. *)
Fixpoint includes (s needle : string) : bool :=
  String.prefix needle s ||
  match s with
  | EmptyString => false
  | String _ s' => includes s' needle
  end.

(** [items.includes(needle)] on arrays, for a string [needle]: some element
    is that very string. *)
Definition array_includes (items : list value) (needle : string) : bool :=
  existsb (fun x => match x with
                    | JString s => String.eqb s needle
                    | _ => false
                    end) items.

(** Truthiness, as [||], [?:] and [if] test it. *)
Definition truthy (v : value) : bool :=
  match v with
  | JUndefined | JNull => false
  | JBool b => b
  | JNumber n => negb (Z.eqb n 0)
  | JString s => negb (String.eqb s "")
  | JArray _ | JObject _ => true
  end.

(** [a || b]. *)
Definition or_else (a b : value) : value := if truthy a then a else b.

Definition join (sep : string) (parts : list string) : string :=
  match parts with
  | [] => ""
  | p :: ps => fold_left (fun acc q => acc +:+ sep +:+ q) ps p
  end.

(** [String(v)], the conversion the [Error] constructor applies to its
    message: an array is its elements joined by commas, [null] and
    [undefined] elements printing as nothing. *)
Fixpoint toString (v : value) : string :=
  match v with
  | JUndefined => "undefined"
  | JNull => "null"
  | JBool true => "true"
  | JBool false => "false"
  | JNumber n => pretty n
  | JString s => s
  | JArray items =>
      join "," (map (fun x => match x with
                              | JUndefined | JNull => ""
                              | _ => toString x
                              end) items)
  | JObject _ => "[object Object]"
  end.

(** [v === 'text']. *)
Definition is_string (v : value) (text : string) : bool :=
  match v with
  | JString s => String.eqb s text
  | _ => false
  end.

(** [v !== undefined]. *)
Definition defined (v : value) : bool :=
  match v with JUndefined => false | _ => true end.

(** [options.k] on an options object. *)
Definition prop (o : gmap string value) (k : string) : value :=
  default JUndefined (o !! k).

End JS.

(** ** errors.ts *)

Module Errors.

(** The classes of the errors that occur: the built-in ones the host
    raises and the three of [errors.ts]. *)
Inductive error_class :=
| Error
| TypeError
| SyntaxError
| DOMException
| PorkbunError
| PorkbunAuthError
| PorkbunRateLimitError.

#[global] Instance error_class_eq_dec : EqDecision error_class.
Proof. solve_decision. Defined.

(** An error object: its class and what reading [name], [message],
    [status] and [limits] on it gives ([undefined] where the class has no
    such field; [response] is never set). *)
Record js_error := {
  cls : error_class;
  name : string;
  message : string;
  status : value;
  limits : value
}.

(** [class C extends D]: the parent of each class. *)
Definition parent (c : error_class) : option error_class :=
  match c with
  | Error => None
  | TypeError | SyntaxError | DOMException | PorkbunError => Some Error
  | PorkbunAuthError | PorkbunRateLimitError => Some PorkbunError
  end.

(** [e instanceof c]. *)
Definition instanceof (e : js_error) (c : error_class) : bool :=
  bool_decide (cls e = c)
  || bool_decide (parent (cls e) = Some c)
  || bool_decide (parent (cls e) ≫= parent = Some c).

(** The [message] of an error built by [new Error(message)]: the string
    of the argument, and the empty string when the argument is
    [undefined]. *)
Definition message_text (message : value) : string :=
  if JS.defined message then JS.toString message else "".

(** [new Error(message)]. *)
Definition new_Error (message : value) : js_error :=
  {| cls := Error; name := "Error"; message := message_text message;
     status := JUndefined; limits := JUndefined |}.

Definition new_TypeError (message : string) : js_error :=
  {| cls := TypeError; name := "TypeError"; message := message;
     status := JUndefined; limits := JUndefined |}.

(** [new PorkbunError(message, status)]. *)
Definition new_PorkbunError (message : value) (status : value) : js_error :=
  {| cls := PorkbunError; name := "PorkbunError";
     message := message_text message;
     status := status; limits := JUndefined |}.

(** [new PorkbunAuthError(message)], [message = 'Authentication failed']
    by default. *)
Definition new_PorkbunAuthError (message : value) : js_error :=
  let message :=
    if JS.defined message then message else JString "Authentication failed" in
  {| cls := PorkbunAuthError; name := "PorkbunAuthError";
     message := message_text message;
     status := JString "AUTH_ERROR"; limits := JUndefined |}.

(** [new PorkbunRateLimitError(message, limits)],
    [message = 'Rate limit exceeded'] by default. *)
Definition new_PorkbunRateLimitError (message : value) (limits : value)
  : js_error :=
  let message :=
    if JS.defined message then message else JString "Rate limit exceeded" in
  {| cls := PorkbunRateLimitError; name := "PorkbunRateLimitError";
     message := message_text message;
     status := JString "RATE_LIMIT"; limits := limits |}.

(** What a [throw] carries: an error object or any other value. *)
Inductive thrown :=
| ThrowError (e : js_error)
| ThrowValue (v : value).

End Errors.

(** ** The host: [fetch], [AbortController] and [setTimeout] *)

Module Host.
Import Errors.

(** What [await response.json()] gives: the parsed body, or a rejection
    (a [SyntaxError] on text that is not JSON), or nothing ever, when the
    body never finishes arriving. *)
Inductive body_result :=
| BodyJson (v : value)
| BodyRejects (t : thrown)
| BodyStalls.

(** The part of a [Response] the client reads. *)
Record response := {
  status : N;
  statusText : string;
  body : body_result
}.

(** [response.ok]: the status is in the range 200-299. *)
Definition ok (r : response) : bool :=
  (200 <=? status r)%N && (status r <=? 299)%N.

(** How the promise of [fetch] settles. *)
Inductive fetch_result :=
| Resolves (r : response)
| Rejects (t : thrown).

(** What the network does with a request that nobody aborts: it settles
    the fetch some milliseconds after the call, or never. *)
Inductive net_behaviour :=
| Settles (after : Z) (r : fetch_result)
| Hangs.

(** The request handed to [fetch]: the URL and the object that
    [JSON.stringify] serialises into the body.  Method and headers are the
    same in every call ([POST], [Content-Type: application/json]). *)
Record request := {
  url : string;
  req_body : gmap string value
}.

Definition network := request -> net_behaviour.

(** The rejection of a fetch whose signal was aborted. *)
Definition AbortError : js_error :=
  {| cls := DOMException; name := "AbortError";
     message := "This operation was aborted";
     Errors.status := JUndefined; limits := JUndefined |}.

(** The delay [setTimeout] waits for: Node.js sets a delay below 1 or
    above 2^31-1 to 1. *)
Definition timer_delay (delay : Z) : Z :=
  if (1 <=? delay) && (delay <=? 2147483647) then delay else 1.

(** [setTimeout(() => controller.abort(), delay)] runs its callback when
    the fetch has not settled by the time the timer is due; a fetch that
    settles at that very millisecond is taken to settle first. *)
Definition timer_fires (delay : Z) (b : net_behaviour) : bool :=
  match b with
  | Hangs => true
  | Settles after _ => timer_delay delay <? after
  end.

(** [await fetch(url, {..., signal})] under that timer: once
    [controller.abort()] has run the fetch rejects with [AbortError]. *)
Definition fetch_with_signal (delay : Z) (b : net_behaviour) : fetch_result :=
  match b with
  | Hangs => Rejects (ThrowError AbortError)
  | Settles after r =>
      if timer_fires delay b then Rejects (ThrowError AbortError) else r
  end.

End Host.

(** ** client.ts *)

Module Client.
Import Errors Host.

(** A computation that returns or throws, or waits for ever on something
    that never settles. *)
Inductive result (T : Type) :=
| Ok (x : T)
| Throw (t : thrown)
| Never.
Arguments Ok {T} x.
Arguments Throw {T} t.
Arguments Never {T}.

#[global] Instance result_ret : MRet result := fun T x => Ok x.
#[global] Instance result_bind : MBind result := fun T U f r =>
  match r with
  | Ok x => f x
  | Throw t => Throw t
  | Never => Never
  end.

(** How the promise of an [async] method settles, if it does. *)
Inductive outcome :=
| Fulfilled (v : value)
| Rejected (t : thrown)
| Pending.

(** *** Construction *)

Record PorkbunConfig := {
  apiKey : string;
  secretKey : string;
  baseUrl : option string;
  timeout : option Z
}.

(** The private fields [#apiKey], [#secretKey], [#baseUrl], [#timeout]. *)
Record PorkbunClient := {
  priv_apiKey : string;
  priv_secretKey : string;
  priv_baseUrl : string;
  priv_timeout : Z
}.

(** [s || fallback] for an optional string: [undefined] and [''] are
    falsy. *)
Definition string_or (s : option string) (fallback : string) : string :=
  match s with
  | Some s => if String.eqb s "" then fallback else s
  | None => fallback
  end.

(** [n || fallback] for an optional number: [undefined] and [0] are
    falsy. *)
Definition number_or (n : option Z) (fallback : Z) : Z :=
  match n with
  | Some n => if n =? 0 then fallback else n
  | None => fallback
  end.

Definition constructor (config : PorkbunConfig) : PorkbunClient :=
  {| priv_apiKey := apiKey config;
     priv_secretKey := secretKey config;
     priv_baseUrl :=
       string_or (baseUrl config) "https://api.porkbun.com/api/json/v3";
     priv_timeout := number_or (timeout config) 30000 |}.

Definition getAuth (this : PorkbunClient) : gmap string value :=
  {[ "apikey" := JString (priv_apiKey this);
     "secretapikey" := JString (priv_secretKey this) ]}.

(** *** Response normalisation *)

Fixpoint convertApiResponse (response : value) : value :=
  match response with
  | JNull | JUndefined => response
  | JArray items => JArray (map convertApiResponse items)
  | JObject fields =>
      JObject ((fun x =>
                  match x with
                  | JString s =>
                      if String.eqb s "yes" then JBool true
                      else if String.eqb s "no" then JBool false
                      else x
                  | JArray _ | JObject _ => convertApiResponse x
                  | _ => x
                  end) <$> fields)
  | _ => response
  end.

(** The body of the [forEach] over the keys of an object: what the value
    of one property becomes. *)
Definition convert_property (x : value) : value :=
  match x with
  | JString s =>
      if String.eqb s "yes" then JBool true
      else if String.eqb s "no" then JBool false
      else x
  | JArray _ | JObject _ => convertApiResponse x
  | _ => x
  end.

(** *** The request pipeline *)

(** [{...a, ...b}]: the keys of both, [b] winning where both have one. *)
Definition spread (a b : gmap string value) : gmap string value := b ∪ a.

(** [result.k] for [k] one of [status], [message], which no array or
    primitive has: reading it off [null] throws (the text of the message
    is the one of V8). *)
Definition member (result : value) (k : string) : Client.result value :=
  match result with
  | JNull | JUndefined =>
      Throw (ThrowError (new_TypeError
        ("Cannot read properties of " +:+ JS.toString result
           +:+ " (reading '" +:+ k +:+ "')")))
  | JObject fields => Ok (JS.prop fields k)
  | _ => Ok JUndefined
  end.

(** [delete result.k], after [result.k] was read. *)
Definition delete_member (result : value) (k : string) : value :=
  match result with
  | JObject fields => JObject (delete k fields)
  | _ => result
  end.

(** [message?.includes('rate limit') || message?.includes('limit')]:
    [undefined] on a missing or [null] message, a call of [includes] on a
    string or an array, a [TypeError] on anything else, which has no
    [includes] to call. *)
Definition mentions_limit (message : value) : result bool :=
  match message with
  | JUndefined | JNull => Ok false
  | JString s => Ok (JS.includes s "rate limit" || JS.includes s "limit")
  | JArray items =>
      Ok (JS.array_includes items "rate limit"
          || JS.array_includes items "limit")
  | _ => Throw (ThrowError (new_TypeError
           "result.message?.includes is not a function"))
  end.

(** The [try] block from the point where [await fetch] has settled.
    [clearTimeout] has run when the body is read: nothing bounds the wait
    for a body that never finishes arriving. *)
Definition try_block (fetched : fetch_result) : result value :=
  match fetched with
  | Rejects t => Throw t
  | Resolves response =>
      if negb (ok response) then
        if (status response =? 403)%N then
          Throw (ThrowError (new_PorkbunAuthError (JString
            "Authentication failed or additional authentication required")))
        else
          Throw (ThrowError (new_Error (JString
            ("HTTP " +:+ pretty (status response) +:+ ": "
               +:+ statusText response))))
      else
        match body response with
        | BodyStalls => Never
        | BodyRejects t => Throw t
        | BodyJson result =>
            st ← member result "status";
            if JS.is_string st "ERROR" then
              message ← member result "message";
              limited ← mentions_limit message;
              if limited : bool then
                Throw (ThrowError
                         (new_PorkbunRateLimitError message JUndefined))
              else
                Throw (ThrowError (new_Error
                         (JS.or_else message (JString "Unknown API error"))))
            else Ok (convertApiResponse (delete_member result "status"))
        end
  end.

(** The [catch] block: what is thrown in place of [error]. *)
Definition catch_block (error : thrown) : js_error :=
  match error with
  | ThrowError e =>
      if String.eqb (name e) "AbortError" then
        new_Error (JString "Request timeout")
      else if instanceof e PorkbunAuthError
              || instanceof e PorkbunRateLimitError then e
      else new_Error (JString ("API request failed: " +:+ message e))
  | ThrowValue _ => new_Error (JString "Unknown error occurred")
  end.

(** The request [#makeRequest] hands to [fetch]. *)
Definition build_request (this : PorkbunClient) (endpoint : string)
    (data : gmap string value) : request :=
  {| url := priv_baseUrl this +:+ endpoint;
     req_body := spread (getAuth this) data |}.

Definition makeRequest (this : PorkbunClient) (net : network)
    (endpoint : string) (data : gmap string value) : outcome :=
  let fetched :=
    fetch_with_signal (priv_timeout this)
      (net (build_request this endpoint data)) in
  match try_block fetched with
  | Ok v => Fulfilled v
  | Throw error => Rejected (ThrowError (catch_block error))
  | Never => Pending
  end.

(** [await this.#makeRequest(...)] in a method that returns nothing. *)
Definition discard (o : outcome) : outcome :=
  match o with
  | Fulfilled _ => Fulfilled JUndefined
  | _ => o
  end.

(** *** General API methods *)

Definition ping (this : PorkbunClient) (net : network) : outcome :=
  makeRequest this net "/ping" ∅.

(** [getPricing] calls [fetch] itself: no credentials in the body, no
    signal and no timer, and its own [try]/[catch]. *)
Definition getPricing (this : PorkbunClient) (net : network) : outcome :=
  let request :=
    {| url := priv_baseUrl this +:+ "/pricing/get"; req_body := ∅ |} in
  match net request with
  | Hangs => Pending
  | Settles _ fetched =>
      let tried : result value :=
        match fetched with
        | Rejects t => Throw t
        | Resolves response =>
            if negb (ok response) then
              Throw (ThrowError (new_Error (JString
                ("HTTP " +:+ pretty (status response) +:+ ": "
                   +:+ statusText response))))
            else
              match body response with
              | BodyStalls => Never
              | BodyRejects t => Throw t
              | BodyJson result => Ok (convertApiResponse result)
              end
        end in
      match tried with
      | Never => Pending
      | Ok v => Fulfilled v
      | Throw error =>
          Rejected (ThrowError (new_Error (JString
            ("Failed to get pricing: " +:+
               match error with
               | ThrowError e => message e
               | ThrowValue _ => "Unknown error"
               end))))
      end
  end.

(** *** Domain management methods *)

Definition yes_no (v : value) : value :=
  JString (if JS.truthy v then "yes" else "no").

Definition updateNameServers this net (domain : string)
    (options : gmap string value) : outcome :=
  discard (makeRequest this net ("/domain/updateNs/" +:+ domain) options).

Definition getNameServers this net (domain : string) : outcome :=
  makeRequest this net ("/domain/getNs/" +:+ domain) ∅.

Definition listDomains this net (options : option (gmap string value))
    : outcome :=
  let options := default ∅ options in
  let data :=
    spread options
      (if JS.defined (JS.prop options "includeLabels")
       then {[ "includeLabels" := yes_no (JS.prop options "includeLabels") ]}
       else ∅) in
  makeRequest this net "/domain/listAll" data.

Definition addURLForward this net (domain : string)
    (options : gmap string value) : outcome :=
  let data :=
    <[ "wildcard" := yes_no (JS.prop options "wildcard") ]>
      (<[ "includePath" := yes_no (JS.prop options "includePath") ]>
         options) in
  discard (makeRequest this net ("/domain/addUrlForward/" +:+ domain) data).

Definition getURLForwarding this net (domain : string) : outcome :=
  makeRequest this net ("/domain/getUrlForwarding/" +:+ domain) ∅.

Definition deleteURLForward this net (domain recordId : string) : outcome :=
  discard (makeRequest this net
             ("/domain/deleteUrlForward/" +:+ domain +:+ "/" +:+ recordId) ∅).

Definition checkDomain this net (domain : string) : outcome :=
  makeRequest this net ("/domain/checkDomain/" +:+ domain) ∅.

Definition createGlueRecord this net (domain subdomain : string)
    (options : gmap string value) : outcome :=
  discard (makeRequest this net
             ("/domain/createGlue/" +:+ domain +:+ "/" +:+ subdomain)
             options).

Definition updateGlueRecord this net (domain subdomain : string)
    (options : gmap string value) : outcome :=
  discard (makeRequest this net
             ("/domain/updateGlue/" +:+ domain +:+ "/" +:+ subdomain)
             options).

Definition deleteGlueRecord this net (domain subdomain : string) : outcome :=
  discard (makeRequest this net
             ("/domain/deleteGlue/" +:+ domain +:+ "/" +:+ subdomain) ∅).

Definition getGlueRecords this net (domain : string) : outcome :=
  makeRequest this net ("/domain/getGlue/" +:+ domain) ∅.

(** *** DNS management methods *)

Inductive DNSRecordType :=
| A | MX | CNAME | ALIAS | TXT | NS | AAAA | SRV | TLSA | CAA | HTTPS | SVCB.

(** A record type is the string of its name. *)
Definition type_text (type : DNSRecordType) : string :=
  match type with
  | A => "A" | MX => "MX" | CNAME => "CNAME" | ALIAS => "ALIAS"
  | TXT => "TXT" | NS => "NS" | AAAA => "AAAA" | SRV => "SRV"
  | TLSA => "TLSA" | CAA => "CAA" | HTTPS => "HTTPS" | SVCB => "SVCB"
  end.

(** [subdomain ? `${prefix}/${domain}/${type}/${subdomain}`
               : `${prefix}/${domain}/${type}`], the endpoint of the three
    by-type methods; [subdomain = ''] when the caller leaves it out. *)
Definition by_type_endpoint (prefix domain : string) (type : DNSRecordType)
    (subdomain : option string) : string :=
  let subdomain := default "" subdomain in
  if JS.truthy (JString subdomain)
  then prefix +:+ domain +:+ "/" +:+ type_text type +:+ "/" +:+ subdomain
  else prefix +:+ domain +:+ "/" +:+ type_text type.

Definition createDNSRecord this net (domain : string)
    (options : gmap string value) : outcome :=
  makeRequest this net ("/dns/create/" +:+ domain) options.

Definition editDNSRecord this net (domain recordId : string)
    (options : gmap string value) : outcome :=
  discard (makeRequest this net
             ("/dns/edit/" +:+ domain +:+ "/" +:+ recordId) options).

Definition editDNSRecordsByType this net (domain : string)
    (type : DNSRecordType) (subdomain : option string)
    (options : gmap string value) : outcome :=
  discard (makeRequest this net
             (by_type_endpoint "/dns/editByNameType/" domain type subdomain)
             options).

Definition deleteDNSRecord this net (domain recordId : string) : outcome :=
  discard (makeRequest this net
             ("/dns/delete/" +:+ domain +:+ "/" +:+ recordId) ∅).

Definition deleteDNSRecordsByType this net (domain : string)
    (type : DNSRecordType) (subdomain : option string) : outcome :=
  discard (makeRequest this net
             (by_type_endpoint "/dns/deleteByNameType/" domain type subdomain)
             ∅).

Definition getDNSRecords this net (domain : string)
    (recordId : option string) : outcome :=
  makeRequest this net
    (match recordId with
     | Some id =>
         if JS.truthy (JString id)
         then "/dns/retrieve/" +:+ domain +:+ "/" +:+ id
         else "/dns/retrieve/" +:+ domain
     | None => "/dns/retrieve/" +:+ domain
     end) ∅.

Definition getDNSRecordsByType this net (domain : string)
    (type : DNSRecordType) (subdomain : option string) : outcome :=
  makeRequest this net
    (by_type_endpoint "/dns/retrieveByNameType/" domain type subdomain) ∅.

(** *** DNSSEC methods *)

Definition createDNSSECRecord this net (domain : string)
    (options : gmap string value) : outcome :=
  discard (makeRequest this net
             ("/dns/createDnssecRecord/" +:+ domain) options).

Definition getDNSSECRecords this net (domain : string) : outcome :=
  makeRequest this net ("/dns/getDnssecRecords/" +:+ domain) ∅.

Definition deleteDNSSECRecord this net (domain keyTag : string) : outcome :=
  discard (makeRequest this net
             ("/dns/deleteDnssecRecord/" +:+ domain +:+ "/" +:+ keyTag) ∅).

(** *** SSL methods *)

Definition getSSLBundle this net (domain : string) : outcome :=
  makeRequest this net ("/ssl/retrieve/" +:+ domain) ∅.

(** *** The public surface *)

(** A call of a public method with its arguments. *)
Inductive operation :=
| Ping
| GetPricing
| UpdateNameServers (domain : string) (options : gmap string value)
| GetNameServers (domain : string)
| ListDomains (options : option (gmap string value))
| AddURLForward (domain : string) (options : gmap string value)
| GetURLForwarding (domain : string)
| DeleteURLForward (domain recordId : string)
| CheckDomain (domain : string)
| CreateGlueRecord (domain subdomain : string) (options : gmap string value)
| UpdateGlueRecord (domain subdomain : string) (options : gmap string value)
| DeleteGlueRecord (domain subdomain : string)
| GetGlueRecords (domain : string)
| CreateDNSRecord (domain : string) (options : gmap string value)
| EditDNSRecord (domain recordId : string) (options : gmap string value)
| EditDNSRecordsByType (domain : string) (type : DNSRecordType)
    (subdomain : option string) (options : gmap string value)
| DeleteDNSRecord (domain recordId : string)
| DeleteDNSRecordsByType (domain : string) (type : DNSRecordType)
    (subdomain : option string)
| GetDNSRecords (domain : string) (recordId : option string)
| GetDNSRecordsByType (domain : string) (type : DNSRecordType)
    (subdomain : option string)
| CreateDNSSECRecord (domain : string) (options : gmap string value)
| GetDNSSECRecords (domain : string)
| DeleteDNSSECRecord (domain keyTag : string)
| GetSSLBundle (domain : string).

Definition call (this : PorkbunClient) (net : network) (op : operation)
    : outcome :=
  match op with
  | Ping => ping this net
  | GetPricing => getPricing this net
  | UpdateNameServers d o => updateNameServers this net d o
  | GetNameServers d => getNameServers this net d
  | ListDomains o => listDomains this net o
  | AddURLForward d o => addURLForward this net d o
  | GetURLForwarding d => getURLForwarding this net d
  | DeleteURLForward d r => deleteURLForward this net d r
  | CheckDomain d => checkDomain this net d
  | CreateGlueRecord d s o => createGlueRecord this net d s o
  | UpdateGlueRecord d s o => updateGlueRecord this net d s o
  | DeleteGlueRecord d s => deleteGlueRecord this net d s
  | GetGlueRecords d => getGlueRecords this net d
  | CreateDNSRecord d o => createDNSRecord this net d o
  | EditDNSRecord d r o => editDNSRecord this net d r o
  | EditDNSRecordsByType d t s o => editDNSRecordsByType this net d t s o
  | DeleteDNSRecord d r => deleteDNSRecord this net d r
  | DeleteDNSRecordsByType d t s => deleteDNSRecordsByType this net d t s
  | GetDNSRecords d r => getDNSRecords this net d r
  | GetDNSRecordsByType d t s => getDNSRecordsByType this net d t s
  | CreateDNSSECRecord d o => createDNSSECRecord this net d o
  | GetDNSSECRecords d => getDNSSECRecords this net d
  | DeleteDNSSECRecord d k => deleteDNSSECRecord this net d k
  | GetSSLBundle d => getSSLBundle this net d
  end.

End Client.

(** ** Notions used to state the properties *)

Module Spec.
Import Errors Host Client.

(** A step into a value: a property of an object or an element of an
    array. *)
Inductive step :=
| Field (k : string)
| Index (i : nat).

(** The value reached from [v] along a path, if there is one. *)
Fixpoint get_path (p : list step) (v : value) : option value :=
  match p with
  | [] => Some v
  | Field k :: p' =>
      match v with
      | JObject fields => fields !! k ≫= get_path p'
      | _ => None
      end
  | Index i :: p' =>
      match v with
      | JArray items => items !! i ≫= get_path p'
      | _ => None
      end
  end.

(** The path ends in a property of an object: the value it reaches is the
    value of a field, not an element of an array and not the root. *)
Definition in_field (p : list step) : bool :=
  match last p with
  | Some (Field _) => true
  | _ => false
  end.

(** What [convertApiResponse] does to the value reached by a path: the
    value of a field goes through [convert_property], an element of an
    array and the root through [convertApiResponse]. *)
Definition converted_at (p : list step) (x : value) : value :=
  if in_field p then convert_property x else convertApiResponse x.

(** The normalisation as the specification words it: every string equal
    to ["yes"] or ["no"], wherever it occurs, becomes a boolean. *)
Fixpoint rewrite_every_string (v : value) : value :=
  match v with
  | JString s =>
      if String.eqb s "yes" then JBool true
      else if String.eqb s "no" then JBool false
      else v
  | JArray items => JArray (map rewrite_every_string items)
  | JObject fields => JObject (rewrite_every_string <$> fields)
  | _ => v
  end.

(** The own property [k] of a value, if it is an object that has one. *)
Definition own_property (v : value) (k : string) : option value :=
  match v with
  | JObject fields => fields !! k
  | _ => None
  end.

(** The last character of a string. *)
Fixpoint last_char (s : string) : option Ascii.ascii :=
  match s with
  | EmptyString => None
  | String c EmptyString => Some c
  | String _ s' => last_char s'
  end.

(** How [await fetch] settles in the call
    [#makeRequest(endpoint, data)]. *)
Definition fetched (this : PorkbunClient) (net : network)
    (endpoint : string) (data : gmap string value) : fetch_result :=
  fetch_with_signal (priv_timeout this)
    (net (build_request this endpoint data)).

(** What a call can fail with on an API-level failure: a rate-limit
    error, or a plain [Error] with the prefix of the [catch] block. *)
Definition api_failure (e : js_error) : Prop :=
  cls e = PorkbunRateLimitError
  \/ (cls e = Error /\ exists m, message e = "API request failed: " +:+ m).

(** A client and responses used as concrete inputs. *)
Definition example_client : PorkbunClient :=
  constructor {| apiKey := "pk1_key"; secretKey := "sk1_secret";
                 baseUrl := None; timeout := None |}.

Definition respond (after : Z) (status : N) (statusText : string)
    (json : value) : network :=
  fun _ => Settles after
             (Resolves {| status := status; statusText := statusText;
                          body := BodyJson json |}).

Definition check_domain_response : value :=
  JObject {[ "status" := JString "SUCCESS";
             "response" := JObject {[ "avail" := JString "yes";
                                      "price" := JString "10.98" ]};
             "limits" := JObject {[ "TTL" := JString "10";
                                    "limit" := JString "1";
                                    "used" := JNumber 1;
                                    "naturalLanguage" :=
                                      JString "1 of 1 used" ]} ]}.

Definition rate_limit_envelope : value :=
  JObject {[ "status" := JString "ERROR";
             "message" := JString "rate limit exceeded";
             "limits" := JObject {[ "TTL" := JString "10";
                                    "limit" := JString "1";
                                    "used" := JNumber 1;
                                    "naturalLanguage" :=
                                      JString "1 of 1 used" ]} ]}.

End Spec.

(** ** Notions used by the further properties *)

Module Shape.
Import Errors Host Client Spec.

(** The number of nodes of a value, to reason by induction on values. *)
Fixpoint value_size (v : value) : nat :=
  match v with
  | JArray items => S (sum_list (value_size <$> items))
  | JObject fields =>
      S (map_fold (fun _ n acc => n + acc)%nat 0%nat (value_size <$> fields))
  | _ => 1
  end.

(** [x === 'yes' || x === 'no']. *)
Definition sentinel (x : value) : bool :=
  JS.is_string x "yes" || JS.is_string x "no".

(** No property of an object, at any depth of [v], holds ["yes"] or
    ["no"]. *)
Definition no_sentinel_field (v : value) : Prop :=
  forall p x, in_field p = true -> get_path p v = Some x -> sentinel x = false.

(** Neither [v] itself nor an element of an array, at any depth of [v], is
    ["yes"] or ["no"]. *)
Definition no_sentinel_element (v : value) : Prop :=
  forall p x, in_field p = false -> get_path p v = Some x -> sentinel x = false.



(** The request [getPricing] hands to [fetch]. *)
Definition pricing_request (this : PorkbunClient) : request :=
  {| url := priv_baseUrl this +:+ "/pricing/get"; req_body := ∅ |}.

(** A network that fails every fetch the way a host does when the server
    cannot be reached. *)
Definition unreachable : network :=
  fun _ => Settles 3 (Rejects (ThrowError (new_TypeError "fetch failed"))).

End Shape.

(** ** Properties *)

Import Errors Host Client Spec.

(** *** Strings *)

Lemma append_cons (c : Ascii.ascii) (s t : string) :
  String c s +:+ t = String c (s +:+ t).
Proof. reflexivity. Qed.

Lemma append_nil (t : string) : "" +:+ t = t.
Proof. reflexivity. Qed.

Lemma prefix_app (n s : string) :
  String.prefix n s = true <-> exists rest, s = n +:+ rest.
Proof.
  revert s. induction n as [|c n IH]; intros s.
  - split; [by exists s|by destruct s].
  - destruct s as [|d s]; simpl.
    + split; [done|]. intros [rest H]. by rewrite append_cons in H.
    + destruct (Ascii.ascii_dec c d) as [->|Hne].
      * rewrite IH. split; intros [rest H]; exists rest.
        -- by rewrite append_cons, H.
        -- rewrite append_cons in H. by injection H.
      * split; [done|]. intros [rest H].
        rewrite append_cons in H. by injection H.
Qed.

Lemma includes_spec (s n : string) :
  JS.includes s n = true <-> exists before rest, s = before +:+ n +:+ rest.
Proof.
  induction s as [|c s IH]; cbn [JS.includes].
  - rewrite orb_false_r, prefix_app. split.
    + intros [rest ->]. by exists "", rest.
    + intros (before & rest & H). destruct before as [|d before].
      * eauto.
      * by rewrite append_cons in H.
  - rewrite orb_true_iff, prefix_app, IH. split.
    + intros [[rest ->]|(before & rest & ->)].
      * by exists "", rest.
      * by exists (String c before), rest.
    + intros (before & rest & H). destruct before as [|d before].
      * left. eauto.
      * right. exists before, rest. rewrite append_cons in H. by injection H.
Qed.

Lemma app_assoc_string (a b c : string) : (a +:+ b) +:+ c = a +:+ (b +:+ c).
Proof.
  induction a as [|x a IH]; [done|]. by rewrite !append_cons, IH.
Qed.

(** A message with "rate limit" in it has "limit" in it. *)
Lemma includes_rate_limit (s : string) :
  JS.includes s "rate limit" = true -> JS.includes s "limit" = true.
Proof.
  rewrite !includes_spec. intros (before & rest & ->).
  exists (before +:+ "rate "), rest.
  by rewrite app_assoc_string.
Qed.

Lemma last_char_app (s t : string) :
  t <> "" -> last_char (s +:+ t) = last_char t.
Proof.
  intros Ht. induction s as [|c s IH]; [done|].
  rewrite append_cons. cbn [last_char]. rewrite IH.
  destruct (s +:+ t) eqn:E; [|done].
  destruct s; [done|by rewrite append_cons in E].
Qed.

(** *** Normalisation *)

Lemma convert_object (fields : gmap string value) :
  convertApiResponse (JObject fields) = JObject (convert_property <$> fields).
Proof. reflexivity. Qed.

Lemma convert_array (items : list value) :
  convertApiResponse (JArray items) = JArray (convertApiResponse <$> items).
Proof. reflexivity. Qed.

Lemma in_field_cons (s : step) (p : list step) :
  p <> [] -> in_field (s :: p) = in_field p.
Proof. by destruct p. Qed.

Lemma in_field_index (i : nat) (p : list step) :
  in_field (Index i :: p) = in_field p.
Proof. by destruct p. Qed.

Lemma get_path_leaf (s : step) (p : list step) (v : value) :
  (forall items, v <> JArray items) -> (forall fields, v <> JObject fields) ->
  get_path (s :: p) v = None.
Proof. intros Ha Ho. destruct s, v; try done; [by edestruct Ho|by edestruct Ha]. Qed.

Lemma get_path_convert (p : list step) : forall v,
  get_path p (convertApiResponse v) = converted_at p <$> get_path p v
  /\ (p <> [] ->
      get_path p (convert_property v) = converted_at p <$> get_path p v).
Proof.
  induction p as [|s p IH]; intros v.
  { split; [done|congruence]. }
  assert (Hroot : get_path (s :: p) (convertApiResponse v)
                  = converted_at (s :: p) <$> get_path (s :: p) v).
  { destruct v as [| | | | |items|fields];
      try (rewrite !get_path_leaf by done; done).
    - rewrite convert_array. destruct s as [k|i]; [done|].
      cbn [get_path]. rewrite list_lookup_fmap.
      destruct (items !! i) as [x|]; [|done]. cbn.
      rewrite (proj1 (IH x)). unfold converted_at.
      by rewrite in_field_index.
    - rewrite convert_object. destruct s as [k|i]; [|done].
      cbn [get_path]. rewrite lookup_fmap.
      destruct (fields !! k) as [x|]; [|done]. cbn.
      destruct (decide (p = [])) as [->|Hp]; [done|].
      rewrite (proj2 (IH x) Hp). unfold converted_at.
      by rewrite in_field_cons. }
  split; [done|]. intros _.
  destruct v as [| | | |t|items|fields]; try (rewrite !get_path_leaf by done; done).
  - rewrite (get_path_leaf s p (JString t)) by done.
    unfold convert_property.
    destruct (String.eqb t "yes"); [by rewrite get_path_leaf|].
    destruct (String.eqb t "no"); by rewrite get_path_leaf.
  - exact Hroot.
  - exact Hroot.
Qed.

(** C2, as amended: [convertApiResponse] rewrites to [true] and [false] the
    strings ["yes"] and ["no"] that are the value of a property of an
    object, at any depth below objects and arrays.  A string that is an
    element of an array, or the response itself, stays as it is, and so does
    every other string, number, boolean and [null]; arrays keep their length
    and objects their keys; no path appears or disappears. *)
Theorem C2_yes_no_property_values_become_booleans (v : value) (p : list step) :
  (get_path p v = None -> get_path p (convertApiResponse v) = None)
  /\ (forall x, get_path p v = Some x ->
      (in_field p = true -> x = JString "yes" ->
         get_path p (convertApiResponse v) = Some (JBool true))
      /\ (in_field p = true -> x = JString "no" ->
         get_path p (convertApiResponse v) = Some (JBool false))
      /\ (in_field p = false -> forall s, x = JString s ->
         get_path p (convertApiResponse v) = Some (JString s))
      /\ (forall s, x = JString s -> s <> "yes" -> s <> "no" ->
         get_path p (convertApiResponse v) = Some (JString s))
      /\ (x = JUndefined \/ x = JNull \/ (exists b, x = JBool b)
          \/ (exists n, x = JNumber n) ->
         get_path p (convertApiResponse v) = Some x)
      /\ (forall items, x = JArray items ->
         exists items', get_path p (convertApiResponse v) = Some (JArray items')
                        /\ length items' = length items)
      /\ (forall fields, x = JObject fields ->
         exists fields', get_path p (convertApiResponse v)
                         = Some (JObject fields')
                         /\ dom fields' = dom fields)).
Proof.
  rewrite (proj1 (get_path_convert p v)). split; [by intros ->|].
  intros x ->. cbn. unfold converted_at. repeat split.
  - by intros -> ->.
  - by intros -> ->.
  - by intros -> s ->.
  - intros s -> Hyes Hno. apply String.eqb_neq in Hyes, Hno.
    destruct (in_field p); [|done].
    unfold convert_property. by rewrite Hyes, Hno.
  - intros [->|[->|[[b ->]|[n ->]]]]; by destruct (in_field p).
  - intros items ->. exists (convertApiResponse <$> items).
    split; [by destruct (in_field p)|by rewrite length_fmap].
  - intros fields ->. exists (convert_property <$> fields).
    split; [by destruct (in_field p)|by rewrite dom_fmap_L].
Qed.

(** The availability answer of the scenario of the specification becomes
    [true]. *)
Lemma C2_witness :
  get_path [Field "response"; Field "avail"]
    (convertApiResponse check_domain_response) = Some (JBool true).
Proof.
  apply (C2_yes_no_property_values_become_booleans check_domain_response
           [Field "response"; Field "avail"]) with (x := JString "yes");
    vm_compute; reflexivity.
Defined.

(** C2 as stated fails: a ["yes"] that is an element of an array is not
    rewritten, so the result differs from rewriting every string leaf. *)
Lemma C2_string_in_array_is_kept :
  convertApiResponse (JObject {[ "ns" := JArray [JString "yes"] ]})
  <> rewrite_every_string (JObject {[ "ns" := JArray [JString "yes"] ]}).
Proof.
  intros H.
  assert (H' : get_path [Field "ns"; Index 0%nat]
                 (convertApiResponse (JObject {[ "ns" := JArray [JString "yes"] ]}))
               = get_path [Field "ns"; Index 0%nat]
                   (rewrite_every_string
                      (JObject {[ "ns" := JArray [JString "yes"] ]})))
    by (by rewrite H).
  vm_compute in H'. discriminate H'.
Qed.

(** The scenario of the specification: the availability answer becomes
    [true], the numeric [used] stays [1], the status is gone. *)
Example checkDomain_scenario :
  checkDomain example_client (respond 80 200 "OK" check_domain_response)
    "example.com"
  = Fulfilled
      (JObject {[ "response" := JObject {[ "avail" := JBool true;
                                           "price" := JString "10.98" ]};
                  "limits" := JObject {[ "TTL" := JString "10";
                                         "limit" := JString "1";
                                         "used" := JNumber 1;
                                         "naturalLanguage" :=
                                           JString "1 of 1 used" ]} ]}).
Proof. vm_compute. reflexivity. Qed.

(** A body that is [null] has no [status] to read: the [TypeError] is
    caught and wrapped. *)
Example null_body_is_wrapped :
  ping example_client (respond 80 200 "OK" JNull)
  = Rejected (ThrowError (new_Error (JString
      "API request failed: Cannot read properties of null (reading 'status')"))).
Proof. vm_compute. reflexivity. Qed.

(** *** The request body *)

Lemma spread_lookup (a b : gmap string value) (k : string) :
  spread a b !! k = match b !! k with
                    | Some v => Some v
                    | None => a !! k
                    end.
Proof.
  unfold spread. rewrite lookup_union.
  destruct (b !! k), (a !! k); done.
Qed.

(** C1, as amended: the body handed to [fetch] always has the fields
    [apikey] and [secretapikey]; each holds the client's credential when the
    payload has no field of that name, and the payload's value when it has
    one.  Every other field is the payload's. *)
Theorem C1_body_has_credential_fields (this : PorkbunClient)
    (endpoint : string) (data : gmap string value) :
  let body := req_body (build_request this endpoint data) in
  body !! "apikey"
    = Some (default (JString (priv_apiKey this)) (data !! "apikey"))
  /\ body !! "secretapikey"
    = Some (default (JString (priv_secretKey this)) (data !! "secretapikey"))
  /\ forall k, k <> "apikey" -> k <> "secretapikey" -> body !! k = data !! k.
Proof.
  cbn. rewrite !spread_lookup. unfold getAuth. repeat split.
  - destruct (data !! "apikey"); [done|]. by rewrite lookup_insert_eq.
  - destruct (data !! "secretapikey"); [done|].
    rewrite lookup_insert_ne by done. by rewrite lookup_singleton_eq.
  - intros k H1 H2. rewrite spread_lookup.
    destruct (data !! k); [done|].
    rewrite lookup_insert_ne by done. by rewrite lookup_singleton_ne.
Qed.

(** C1 as stated fails: a payload with a field [apikey] replaces the
    client's key in the body. *)
Lemma C1_payload_overrides_credentials :
  req_body (build_request example_client "/ping"
              {[ "apikey" := JString "caller" ]}) !! "apikey"
  <> Some (JString (priv_apiKey example_client)).
Proof. vm_compute. discriminate. Qed.

(** *** Construction *)

(** C10: a configured timeout of [0] and a configured base URL [''] are
    replaced by the defaults, so no client has a zero timeout or an empty
    base URL. *)
Theorem C10_falsy_configuration_gets_defaults (config : PorkbunConfig) :
  (timeout config = Some 0 -> priv_timeout (constructor config) = 30000)
  /\ (baseUrl config = Some "" ->
      priv_baseUrl (constructor config) = "https://api.porkbun.com/api/json/v3")
  /\ priv_timeout (constructor config) <> 0
  /\ priv_baseUrl (constructor config) <> "".
Proof.
  unfold constructor; cbn. repeat split.
  - by intros ->.
  - by intros ->.
  - unfold number_or. destruct (timeout config) as [t|]; [|done].
    destruct (Z.eqb_spec t 0); done.
  - unfold string_or. destruct (baseUrl config) as [u|]; [|done].
    destruct (String.eqb_spec u ""); done.
Qed.

Lemma C10_witness :
  priv_timeout (constructor {| apiKey := "k"; secretKey := "s";
                               baseUrl := Some ""; timeout := Some 0 |})
    = 30000
  /\ priv_baseUrl (constructor {| apiKey := "k"; secretKey := "s";
                                  baseUrl := Some ""; timeout := Some 0 |})
    = "https://api.porkbun.com/api/json/v3".
Proof.
  pose proof (C10_falsy_configuration_gets_defaults
                {| apiKey := "k"; secretKey := "s";
                   baseUrl := Some ""; timeout := Some 0 |}) as (Ht & Hu & _).
  split; [apply Ht|apply Hu]; reflexivity.
Defined.

(** *** Endpoints of the by-type methods *)

Lemma type_text_last (type : DNSRecordType) :
  type_text type <> "" /\ last_char (type_text type) <> Some "/"%char.
Proof. destruct type; split; discriminate. Qed.

(** C7: with an empty (or omitted) subdomain the edit, delete and retrieve
    by-type methods request the path that ends with the type segment, which
    has no slash at its end; with a subdomain that is not empty they request
    that same path followed by a slash and the subdomain as it is. *)
Theorem C7_by_type_endpoint (this : PorkbunClient) (net : network)
    (domain : string) (type : DNSRecordType) (subdomain : option string)
    (options : gmap string value) :
  let path prefix := prefix +:+ domain +:+ "/" +:+ type_text type in
  (editDNSRecordsByType this net domain type subdomain options
     = discard (makeRequest this net
                  (by_type_endpoint "/dns/editByNameType/" domain type subdomain)
                  options)
   /\ deleteDNSRecordsByType this net domain type subdomain
     = discard (makeRequest this net
                  (by_type_endpoint "/dns/deleteByNameType/" domain type
                     subdomain) ∅)
   /\ getDNSRecordsByType this net domain type subdomain
     = makeRequest this net
         (by_type_endpoint "/dns/retrieveByNameType/" domain type subdomain) ∅)
  /\ (forall prefix, subdomain = None \/ subdomain = Some "" ->
        by_type_endpoint prefix domain type subdomain = path prefix
        /\ last_char (by_type_endpoint prefix domain type subdomain)
           = last_char (type_text type)
        /\ last_char (by_type_endpoint prefix domain type subdomain)
           <> Some "/"%char)
  /\ (forall prefix s, subdomain = Some s -> s <> "" ->
        by_type_endpoint prefix domain type subdomain
        = path prefix +:+ "/" +:+ s).
Proof.
  intros path. split; [done|]. split.
  - intros prefix Hsub.
    assert (E : by_type_endpoint prefix domain type subdomain = path prefix)
      by (by destruct Hsub as [->| ->]).
    rewrite E. unfold path.
    rewrite <- !app_assoc_string, last_char_app by apply type_text_last.
    split; [done|]. split; [done|apply type_text_last].
  - intros prefix s -> Hs. unfold by_type_endpoint, path. cbn.
    apply String.eqb_neq in Hs. rewrite Hs. cbn.
    by rewrite !app_assoc_string.
Qed.

Lemma C7_witness :
  by_type_endpoint "/dns/editByNameType/" "example.com" TXT (Some "")
    = "/dns/editByNameType/example.com/TXT"
  /\ by_type_endpoint "/dns/deleteByNameType/" "example.com" TXT (Some "www")
    = "/dns/deleteByNameType/example.com/TXT/www".
Proof.
  split.
  - pose proof (C7_by_type_endpoint example_client (respond 1 200 "OK" JNull)
                  "example.com" TXT (Some "") ∅) as (_ & Hempty & _).
    apply (Hempty "/dns/editByNameType/"). right; reflexivity.
  - pose proof (C7_by_type_endpoint example_client (respond 1 200 "OK" JNull)
                  "example.com" TXT (Some "www") ∅) as (_ & _ & Hsub).
    apply (Hsub "/dns/deleteByNameType/" "www"); [reflexivity|discriminate].
Defined.

(** *** Error classification in the pipeline *)

Lemma makeRequest_unfold (this : PorkbunClient) (net : network)
    (endpoint : string) (data : gmap string value) :
  makeRequest this net endpoint data
  = match try_block (fetched this net endpoint data) with
    | Ok v => Fulfilled v
    | Throw error => Rejected (ThrowError (catch_block error))
    | Never => Pending
    end.
Proof. reflexivity. Qed.

(** The [try] block on a 2xx response whose envelope has the status
    ["ERROR"]. *)
Lemma try_block_error_envelope (response : response)
    (fields : gmap string value) :
  ok response = true ->
  body response = BodyJson (JObject fields) ->
  fields !! "status" = Some (JString "ERROR") ->
  try_block (Resolves response)
  = limited ← mentions_limit (JS.prop fields "message");
    if limited : bool then
      Throw (ThrowError
               (new_PorkbunRateLimitError (JS.prop fields "message") JUndefined))
    else
      Throw (ThrowError
               (new_Error (JS.or_else (JS.prop fields "message")
                             (JString "Unknown API error")))).
Proof.
  intros Hok Hbody Hstatus. unfold try_block. rewrite Hok, Hbody. cbn.
  unfold JS.prop at 1. by rewrite Hstatus.
Qed.

(** The [try] block on a response that is not 2xx. *)
Lemma try_block_not_ok (response : response) :
  ok response = false ->
  try_block (Resolves response)
  = if (status response =? 403)%N then
      Throw (ThrowError (new_PorkbunAuthError (JString
        "Authentication failed or additional authentication required")))
    else
      Throw (ThrowError (new_Error (JString
        ("HTTP " +:+ pretty (status response) +:+ ": "
           +:+ statusText response)))).
Proof. intros Hok. unfold try_block. by rewrite Hok. Qed.

(** Every operation other than [getPricing] is one call of
    [#makeRequest], whose result it returns or discards. *)
Lemma call_routes (this : PorkbunClient) (op : operation) :
  op <> GetPricing ->
  exists endpoint data,
    (forall net, call this net op = makeRequest this net endpoint data)
    \/ (forall net,
          call this net op = discard (makeRequest this net endpoint data)).
Proof.
  intros Hop. destruct op; try done; cbn;
    try (eexists _, _; left; intros net; reflexivity);
    eexists _, _; right; intros net; reflexivity.
Qed.

Lemma call_rejected (this : PorkbunClient) (net : network) (op : operation)
    (endpoint : string) (data : gmap string value) (t : thrown) :
  (forall net, call this net op = makeRequest this net endpoint data)
  \/ (forall net,
        call this net op = discard (makeRequest this net endpoint data)) ->
  makeRequest this net endpoint data = Rejected t ->
  call this net op = Rejected t.
Proof. intros [Hroute|Hroute] Hmake; rewrite Hroute, Hmake; done. Qed.

Lemma makeRequest_forbidden (this : PorkbunClient) (net : network)
    (endpoint : string) (data : gmap string value) (response : response) :
  fetched this net endpoint data = Resolves response ->
  status response = 403%N ->
  makeRequest this net endpoint data
  = Rejected (ThrowError (new_PorkbunAuthError (JString
      "Authentication failed or additional authentication required"))).
Proof.
  intros Hfetch Hstatus. rewrite makeRequest_unfold, Hfetch.
  rewrite try_block_not_ok by (unfold ok; by rewrite Hstatus).
  by rewrite Hstatus.
Qed.

(** C5, as amended: every operation other than [getPricing] is one call of
    the pipeline, and a response with status 403 to that call makes the
    operation fail with a [PorkbunAuthError] that has the message of the
    specification, whatever the body; the error is neither a rate-limit
    error nor a plain [Error]. *)
Theorem C5_forbidden_is_authentication_error (this : PorkbunClient)
    (op : operation) :
  op <> GetPricing ->
  exists endpoint data,
    ((forall net, call this net op = makeRequest this net endpoint data)
     \/ (forall net,
           call this net op = discard (makeRequest this net endpoint data)))
    /\ forall net response,
         fetched this net endpoint data = Resolves response ->
         status response = 403%N ->
         exists e,
           call this net op = Rejected (ThrowError e)
           /\ cls e = PorkbunAuthError
           /\ message e
              = "Authentication failed or additional authentication required"
           /\ instanceof e PorkbunRateLimitError = false
           /\ cls e <> Error.
Proof.
  intros Hop. destruct (call_routes this op Hop) as (endpoint & data & Hroute).
  exists endpoint, data. split; [done|].
  intros net response Hfetch Hstatus. eexists. split.
  - eapply call_rejected; [done|]. by eapply makeRequest_forbidden.
  - done.
Qed.

Lemma C5_witness :
  exists e,
    call example_client (respond 80 403 "Forbidden" rate_limit_envelope)
      (CheckDomain "example.com")
    = Rejected (ThrowError e)
    /\ cls e = PorkbunAuthError.
Proof.
  destruct (C5_forbidden_is_authentication_error example_client
              (CheckDomain "example.com") ltac:(discriminate))
    as (endpoint & data & _ & H).
  destruct (H (respond 80 403 "Forbidden" rate_limit_envelope)
              {| status := 403; statusText := "Forbidden";
                 body := BodyJson rate_limit_envelope |}
              eq_refl eq_refl) as (e & He & Hcls & _).
  exists e. split; [exact He|exact Hcls].
Defined.

(** C5 as stated fails: [getPricing] answers a response with status 403
    with a plain [Error], not with an authentication error. *)
Lemma C5_getPricing_forbidden_is_plain_error :
  call example_client (respond 80 403 "Forbidden" JNull) GetPricing
  = Rejected (ThrowError
                {| cls := Error; name := "Error";
                   message := "Failed to get pricing: HTTP 403: Forbidden";
                   Errors.status := JUndefined; limits := JUndefined |}).
Proof. vm_compute. reflexivity. Qed.

Lemma makeRequest_error_message (this : PorkbunClient) (net : network)
    (endpoint : string) (data : gmap string value) (response : response)
    (fields : gmap string value) :
  fetched this net endpoint data = Resolves response ->
  ok response = true ->
  body response = BodyJson (JObject fields) ->
  fields !! "status" = Some (JString "ERROR") ->
  (forall m, fields !! "message" = Some (JString m) ->
     (JS.includes m "limit" = true ->
      makeRequest this net endpoint data
      = Rejected (ThrowError
                    (new_PorkbunRateLimitError (JString m) JUndefined)))
     /\ (JS.includes m "limit" = false -> m <> "" ->
         makeRequest this net endpoint data
         = Rejected (ThrowError
                       (new_Error (JString ("API request failed: " +:+ m))))))
  /\ (fields !! "message" = None \/ fields !! "message" = Some JNull
      \/ fields !! "message" = Some (JString "") ->
      makeRequest this net endpoint data
      = Rejected (ThrowError
                    (new_Error
                       (JString "API request failed: Unknown API error")))).
Proof.
  intros Hfetch Hok Hbody Hstatus.
  rewrite makeRequest_unfold, Hfetch,
    (try_block_error_envelope response fields Hok Hbody Hstatus).
  unfold JS.prop. split.
  - intros m ->. cbn. split.
    + intros ->. by rewrite orb_true_r.
    + intros Hno Hm.
      destruct (JS.includes m "rate limit") eqn:Hrate.
      { apply includes_rate_limit in Hrate. congruence. }
      rewrite Hno. cbn. unfold JS.or_else. cbn.
      apply String.eqb_neq in Hm. by rewrite Hm.
  - by intros [->|[->| ->]].
Qed.

(** C6, as amended: every operation other than [getPricing] is one call of
    the pipeline, and on a 2xx response to that call whose envelope has the
    status ["ERROR"], a message with "limit" in it (a message with "rate
    limit" in it is one) makes the operation fail with a
    [PorkbunRateLimitError] that has that message; a message without it
    makes the operation fail with a plain [Error] whose message is "API
    request failed: " and the message, and a missing, [null] or empty
    message gives "Unknown API error" in its place. *)
Theorem C6_error_envelope_classification (this : PorkbunClient)
    (op : operation) :
  op <> GetPricing ->
  exists endpoint data,
    ((forall net, call this net op = makeRequest this net endpoint data)
     \/ (forall net,
           call this net op = discard (makeRequest this net endpoint data)))
    /\ forall net response fields,
         fetched this net endpoint data = Resolves response ->
         ok response = true ->
         body response = BodyJson (JObject fields) ->
         fields !! "status" = Some (JString "ERROR") ->
         (forall m, fields !! "message" = Some (JString m) ->
            (JS.includes m "rate limit" = true -> JS.includes m "limit" = true)
            /\ (JS.includes m "limit" = true ->
                call this net op
                = Rejected (ThrowError
                              (new_PorkbunRateLimitError (JString m) JUndefined))
                /\ cls (new_PorkbunRateLimitError (JString m) JUndefined)
                   = PorkbunRateLimitError
                /\ message (new_PorkbunRateLimitError (JString m) JUndefined)
                   = m)
            /\ (JS.includes m "limit" = false -> m <> "" ->
                call this net op
                = Rejected (ThrowError
                              (new_Error
                                 (JString ("API request failed: " +:+ m))))))
         /\ (fields !! "message" = None \/ fields !! "message" = Some JNull
             \/ fields !! "message" = Some (JString "") ->
             call this net op
             = Rejected (ThrowError
                           (new_Error
                              (JString
                                 "API request failed: Unknown API error")))).
Proof.
  intros Hop. destruct (call_routes this op Hop) as (endpoint & data & Hroute).
  exists endpoint, data. split; [done|].
  intros net response fields Hfetch Hok Hbody Hstatus.
  destruct (makeRequest_error_message this net endpoint data response fields
              Hfetch Hok Hbody Hstatus) as [Hmsg Hnone].
  split.
  - intros m Hm. destruct (Hmsg m Hm) as [Hlimit Hother].
    split; [apply includes_rate_limit|]. split.
    + intros Hin. split; [|done].
      eapply call_rejected; [done|]. by apply Hlimit.
    + intros Hno Hne. eapply call_rejected; [done|]. by apply Hother.
  - intros Hcase. eapply call_rejected; [done|]. by apply Hnone.
Qed.

Lemma C6_witness :
  call example_client (respond 80 200 "OK" rate_limit_envelope)
    (CheckDomain "example.com")
  = Rejected (ThrowError
                (new_PorkbunRateLimitError (JString "rate limit exceeded")
                   JUndefined)).
Proof.
  destruct (C6_error_envelope_classification example_client
              (CheckDomain "example.com") ltac:(discriminate))
    as (endpoint & data & _ & H).
  destruct (H (respond 80 200 "OK" rate_limit_envelope)
              {| status := 200; statusText := "OK";
                 body := BodyJson rate_limit_envelope |}
              {[ "status" := JString "ERROR";
                 "message" := JString "rate limit exceeded";
                 "limits" := JObject {[ "TTL" := JString "10";
                                        "limit" := JString "1";
                                        "used" := JNumber 1;
                                        "naturalLanguage" :=
                                          JString "1 of 1 used" ]} ]}
              eq_refl eq_refl eq_refl eq_refl) as (Hmsg & _).
  destruct (Hmsg "rate limit exceeded" eq_refl) as (_ & Hlimit & _).
  apply Hlimit. reflexivity.
Defined.

(** C6 as stated fails: [getPricing] returns a 2xx response whose envelope
    has the status ["ERROR"] and a message with "limit" in it as its
    result, and raises no error. *)
Lemma C6_getPricing_returns_limit_envelope :
  call example_client (respond 80 200 "OK" rate_limit_envelope) GetPricing
  = Fulfilled rate_limit_envelope
  /\ own_property rate_limit_envelope "status" = Some (JString "ERROR")
  /\ own_property rate_limit_envelope "message"
     = Some (JString "rate limit exceeded")
  /\ JS.includes "rate limit exceeded" "limit" = true.
Proof. repeat split; vm_compute; reflexivity. Qed.

Lemma makeRequest_other_status (this : PorkbunClient) (net : network)
    (endpoint : string) (data : gmap string value) (response : response) :
  fetched this net endpoint data = Resolves response ->
  ok response = false ->
  status response <> 403%N ->
  makeRequest this net endpoint data
  = Rejected (ThrowError (new_Error (JString
      ("API request failed: HTTP " +:+ pretty (status response) +:+ ": "
         +:+ statusText response)))).
Proof.
  intros Hfetch Hok Hstatus. rewrite makeRequest_unfold, Hfetch.
  rewrite try_block_not_ok by done.
  apply N.eqb_neq in Hstatus. by rewrite Hstatus.
Qed.

(** C8, as amended: every operation other than [getPricing] is one call of
    the pipeline, and a response to that call that is not 2xx and not 403
    makes the operation fail with a plain [Error] whose message is "API
    request failed: HTTP ", the status in decimal, ": " and the status
    text.  It has the class and the message prefix of the errors raised for
    an API-level failure: no class of its own tells a transport failure
    apart. *)
Theorem C8_other_status_is_plain_error (this : PorkbunClient)
    (op : operation) :
  op <> GetPricing ->
  exists endpoint data,
    ((forall net, call this net op = makeRequest this net endpoint data)
     \/ (forall net,
           call this net op = discard (makeRequest this net endpoint data)))
    /\ forall net response,
         fetched this net endpoint data = Resolves response ->
         ok response = false ->
         status response <> 403%N ->
         call this net op
         = Rejected (ThrowError (new_Error (JString
             ("API request failed: HTTP " +:+ pretty (status response)
                +:+ ": " +:+ statusText response))))
         /\ cls (new_Error (JString
             ("API request failed: HTTP " +:+ pretty (status response)
                +:+ ": " +:+ statusText response))) = Error
         /\ api_failure (new_Error (JString
             ("API request failed: HTTP " +:+ pretty (status response)
                +:+ ": " +:+ statusText response))).
Proof.
  intros Hop. destruct (call_routes this op Hop) as (endpoint & data & Hroute).
  exists endpoint, data. split; [done|].
  intros net response Hfetch Hok Hstatus. split; [|split; [done|]].
  - eapply call_rejected; [done|]. by apply makeRequest_other_status.
  - right. split; [done|]. by eexists.
Qed.

Lemma C8_witness :
  call example_client (respond 80 500 "Internal Server Error" JNull) Ping
  = Rejected (ThrowError (new_Error (JString
      "API request failed: HTTP 500: Internal Server Error"))).
Proof.
  destruct (C8_other_status_is_plain_error example_client Ping
              ltac:(discriminate)) as (endpoint & data & _ & H).
  apply (H (respond 80 500 "Internal Server Error" JNull)
           {| status := 500; statusText := "Internal Server Error";
              body := BodyJson JNull |});
    [reflexivity|reflexivity|discriminate].
Defined.

(** C8 as stated fails: the error of a 500 response is the very error of a
    200 response whose envelope reports the API-level failure
    "HTTP 500: Internal Server Error". *)
Lemma C8_transport_error_equals_api_error :
  makeRequest example_client
    (respond 80 500 "Internal Server Error" JNull) "/ping" ∅
  = makeRequest example_client
      (respond 80 200 "OK"
         (JObject {[ "status" := JString "ERROR";
                     "message" :=
                       JString "HTTP 500: Internal Server Error" ]}))
      "/ping" ∅
  /\ exists e,
       makeRequest example_client
         (respond 80 500 "Internal Server Error" JNull) "/ping" ∅
       = Rejected (ThrowError e).
Proof. split; [|eexists]; vm_compute; reflexivity. Qed.

(** C3: the code at a rate-limited response that carries limit metadata.
    The error raised has the message, and its [limits] is [undefined]. *)
Theorem C3_rate_limit_error_has_no_limits :
  checkDomain example_client (respond 80 200 "OK" rate_limit_envelope)
    "example.com"
  = Rejected (ThrowError
                {| cls := PorkbunRateLimitError;
                   name := "PorkbunRateLimitError";
                   message := "rate limit exceeded";
                   Errors.status := JString "RATE_LIMIT";
                   limits := JUndefined |})
  /\ own_property rate_limit_envelope "limits"
     = Some (JObject {[ "TTL" := JString "10"; "limit" := JString "1";
                        "used" := JNumber 1;
                        "naturalLanguage" := JString "1 of 1 used" ]}).
Proof. split; vm_compute; reflexivity. Qed.

(** *** The timeout *)

(** C9, as amended: a pipeline call arms its timer with the configured
    timeout when that is a number other than [0], and with 30000 ms when
    the configuration has no timeout; when the timer fires before the fetch
    settles, the fetch is aborted and the call fails with the plain [Error]
    "Request timeout", which is neither an authentication nor a rate-limit
    error and has no "API request failed: " prefix. *)
Theorem C9_timeout_aborts_the_request (config : PorkbunConfig)
    (net : network) (endpoint : string) (data : gmap string value) :
  let this := constructor config in
  (timeout config = None -> priv_timeout this = 30000)
  /\ (forall t, timeout config = Some t -> t <> 0 -> priv_timeout this = t)
  /\ (timer_fires (priv_timeout this)
        (net (build_request this endpoint data)) = true ->
      fetched this net endpoint data = Rejects (ThrowError AbortError)
      /\ makeRequest this net endpoint data
         = Rejected (ThrowError (new_Error (JString "Request timeout")))
      /\ instanceof (new_Error (JString "Request timeout")) PorkbunAuthError
         = false
      /\ instanceof (new_Error (JString "Request timeout"))
           PorkbunRateLimitError = false
      /\ String.prefix "API request failed: "
           (message (new_Error (JString "Request timeout"))) = false).
Proof.
  intros this. split; [|split].
  - unfold this, constructor; cbn. by intros ->.
  - unfold this, constructor; cbn. intros t -> Ht.
    apply Z.eqb_neq in Ht. cbn. by rewrite Ht.
  - intros Hfires.
    assert (Hfetch : fetched this net endpoint data
                     = Rejects (ThrowError AbortError)).
    { unfold fetched, fetch_with_signal.
      destruct (net (build_request this endpoint data)); [|done].
      by rewrite Hfires. }
    split; [done|]. rewrite makeRequest_unfold, Hfetch. done.
Qed.

Lemma C9_witness :
  makeRequest
    (constructor {| apiKey := "k"; secretKey := "s";
                    baseUrl := None; timeout := Some 5000 |})
    (respond 5001 200 "OK" (JObject ∅)) "/ping" ∅
  = Rejected (ThrowError (new_Error (JString "Request timeout")))
  /\ priv_timeout
       (constructor {| apiKey := "k"; secretKey := "s";
                       baseUrl := None; timeout := None |}) = 30000.
Proof.
  split.
  - pose proof (C9_timeout_aborts_the_request
                  {| apiKey := "k"; secretKey := "s";
                     baseUrl := None; timeout := Some 5000 |}
                  (respond 5001 200 "OK" (JObject ∅)) "/ping" ∅)
      as (_ & _ & Hfire).
    apply Hfire. reflexivity.
  - pose proof (C9_timeout_aborts_the_request
                  {| apiKey := "k"; secretKey := "s";
                     baseUrl := None; timeout := None |}
                  (respond 1 200 "OK" JNull) "/ping" ∅) as (Hdefault & _).
    apply Hdefault. reflexivity.
Defined.

(** C9 as stated fails: with a configured timeout of [0] the response that
    arrives after 5 ms arrives after the configured timeout has elapsed, yet
    the call is not aborted and returns the response. *)
Lemma C9_zero_timeout_is_not_applied :
  timeout {| apiKey := "k"; secretKey := "s";
             baseUrl := None; timeout := Some 0 |} = Some 0
  /\ timer_fires 0 (respond 5 200 "OK" (JObject ∅)
                      (build_request
                         (constructor {| apiKey := "k"; secretKey := "s";
                                         baseUrl := None; timeout := Some 0 |})
                         "/ping" ∅)) = true
  /\ makeRequest
       (constructor {| apiKey := "k"; secretKey := "s";
                       baseUrl := None; timeout := Some 0 |})
       (respond 5 200 "OK" (JObject ∅)) "/ping" ∅
     = Fulfilled (JObject ∅).
Proof. repeat split; vm_compute; reflexivity. Qed.

(** *** The public operations *)

Lemma makeRequest_error_envelope (this : PorkbunClient) (net : network)
    (endpoint : string) (data : gmap string value) (response : response)
    (fields : gmap string value) :
  fetched this net endpoint data = Resolves response ->
  ok response = true ->
  body response = BodyJson (JObject fields) ->
  fields !! "status" = Some (JString "ERROR") ->
  exists e, makeRequest this net endpoint data = Rejected (ThrowError e)
            /\ api_failure e.
Proof.
  intros Hfetch Hok Hbody Hstatus.
  rewrite makeRequest_unfold, Hfetch,
    (try_block_error_envelope response fields Hok Hbody Hstatus).
  destruct (mentions_limit (JS.prop fields "message")) as [[|]|t|] eqn:Hm; cbn.
  - eexists. split; [reflexivity|]. by left.
  - eexists. split; [reflexivity|]. right. split; [done|]. by eexists.
  - destruct (JS.prop fields "message"); try discriminate Hm;
      injection Hm as <-; eexists; (split; [reflexivity|]);
      right; (split; [done|]); by eexists.
  - by destruct (JS.prop fields "message").
Qed.

Lemma convert_own_property (v : value) (k : string) :
  own_property (convertApiResponse v) k = convert_property <$> own_property v k.
Proof.
  destruct v; try done. rewrite convert_object. cbn. by rewrite lookup_fmap.
Qed.

Lemma makeRequest_fulfilled_status (this : PorkbunClient) (net : network)
    (endpoint : string) (data : gmap string value) (v : value) :
  makeRequest this net endpoint data = Fulfilled v ->
  own_property v "status" = None.
Proof.
  rewrite makeRequest_unfold.
  destruct (try_block (fetched this net endpoint data)) as [x|t|] eqn:Htry;
    [|done|done].
  intros [= <-]. unfold try_block in Htry.
  destruct (fetched this net endpoint data) as [response|]; [|done].
  destruct (ok response); cbn in Htry; [|by destruct (status response =? 403)%N].
  destruct (body response) as [result| |]; [|done|done].
  destruct (member result "status") as [st| |] eqn:Hst; [|done|done].
  cbn in Htry.
  destruct (JS.is_string st "ERROR").
  { destruct (member result "message") as [msg| |]; [|done|done].
    cbn in Htry.
    destruct (mentions_limit msg) as [[|]| |]; done. }
  injection Htry as <-. rewrite convert_own_property.
  destruct result; try done. cbn. by rewrite lookup_delete_eq.
Qed.

(** C4, as amended: every public operation other than [getPricing] is one
    call of [#makeRequest], whose result it returns or discards.  For these
    operations a 2xx response whose envelope has the status ["ERROR"] makes
    the call fail with a rate-limit error or with the plain [Error] of an
    API failure, and a result that is returned has no [status] field. *)
Theorem C4_operations_route_through_pipeline (this : PorkbunClient)
    (net : network) (op : operation) :
  op <> GetPricing ->
  exists endpoint data,
    (call this net op = makeRequest this net endpoint data
     \/ call this net op = discard (makeRequest this net endpoint data))
    /\ (forall response fields,
          fetched this net endpoint data = Resolves response ->
          ok response = true ->
          body response = BodyJson (JObject fields) ->
          fields !! "status" = Some (JString "ERROR") ->
          exists e, call this net op = Rejected (ThrowError e)
                    /\ api_failure e)
    /\ (forall v, call this net op = Fulfilled v ->
          own_property v "status" = None).
Proof.
  intros Hop.
  assert (Hroute : exists endpoint data,
             call this net op = makeRequest this net endpoint data
             \/ call this net op = discard (makeRequest this net endpoint data)).
  { destruct op; try done; cbn;
      try (eexists _, _; left; reflexivity);
      eexists _, _; right; reflexivity. }
  destruct Hroute as (endpoint & data & Hroute).
  exists endpoint, data. split; [done|]. split.
  - intros response fields Hfetch Hok Hbody Hstatus.
    destruct (makeRequest_error_envelope this net endpoint data response
                fields Hfetch Hok Hbody Hstatus) as (e & He & Hfail).
    exists e. split; [|done].
    destruct Hroute as [-> | ->]; by rewrite He.
  - intros v Hv. destruct Hroute as [Hr|Hr]; rewrite Hr in Hv.
    + by eapply makeRequest_fulfilled_status.
    + destruct (makeRequest this net endpoint data); try done.
      by injection Hv as <-.
Qed.

Lemma C4_witness :
  exists e,
    call example_client (respond 80 200 "OK" rate_limit_envelope)
      (CheckDomain "example.com") = Rejected (ThrowError e)
    /\ api_failure e.
Proof.
  destruct (C4_operations_route_through_pipeline example_client
              (respond 80 200 "OK" rate_limit_envelope)
              (CheckDomain "example.com") ltac:(discriminate))
    as (endpoint & data & _ & Hfail & _).
  apply (Hfail {| status := 200; statusText := "OK";
                  body := BodyJson rate_limit_envelope |}
           {[ "status" := JString "ERROR";
              "message" := JString "rate limit exceeded";
              "limits" := JObject {[ "TTL" := JString "10";
                                     "limit" := JString "1";
                                     "used" := JNumber 1;
                                     "naturalLanguage" :=
                                       JString "1 of 1 used" ]} ]});
    reflexivity.
Defined.

(** C4 as stated fails: [getPricing] does not go through the pipeline; on a
    2xx response whose envelope has the status ["ERROR"] it does not fail
    but returns the envelope, status included. *)
Lemma C4_getPricing_returns_error_envelope :
  call example_client
    (respond 80 200 "OK"
       (JObject {[ "status" := JString "ERROR";
                   "message" := JString "Invalid API key." ]}))
    GetPricing
  = Fulfilled (JObject {[ "status" := JString "ERROR";
                          "message" := JString "Invalid API key." ]})
  /\ own_property
       (JObject {[ "status" := JString "ERROR";
                   "message" := JString "Invalid API key." ]}) "status"
     = Some (JString "ERROR").
Proof. split; vm_compute; reflexivity. Qed.

(** ** Further properties *)

Import Shape.

(** *** Induction on values *)

Lemma sum_list_lookup (l : list nat) (i n : nat) :
  l !! i = Some n -> (n <= sum_list l)%nat.
Proof.
  revert i. induction l as [|a l IH]; intros [|i]; simpl; try done.
  - intros [= ->]. lia.
  - intros H. apply IH in H. lia.
Qed.

Lemma map_sum_lookup (m : gmap string nat) (k : string) (n : nat) :
  m !! k = Some n ->
  (n <= map_fold (fun _ n acc => n + acc)%nat 0%nat m)%nat.
Proof.
  intros H. rewrite <- (insert_delete_id m k n H).
  rewrite map_fold_insert_L.
  - lia.
  - intros. lia.
  - by rewrite lookup_delete_eq.
Qed.

Lemma value_ind_nested (P : value -> Prop) :
  P JUndefined -> P JNull -> (forall b, P (JBool b)) ->
  (forall n, P (JNumber n)) -> (forall s, P (JString s)) ->
  (forall items, Forall P items -> P (JArray items)) ->
  (forall fields, map_Forall (fun _ => P) fields -> P (JObject fields)) ->
  forall v, P v.
Proof.
  intros Hu Hn Hb Hz Hs Ha Ho v.
  remember (value_size v) as n eqn:Hsize. revert v Hsize.
  induction n as [n IH] using lt_wf_ind. intros v ->.
  destruct v as [| | | | |items|fields]; auto.
  - apply Ha, Forall_lookup. intros i x Hx.
    apply (IH (value_size x)); [|done]. cbn.
    pose proof (sum_list_lookup (value_size <$> items) i (value_size x)) as H.
    rewrite list_lookup_fmap, Hx in H. specialize (H eq_refl). lia.
  - apply Ho. intros k x Hx.
    apply (IH (value_size x)); [|done]. cbn.
    pose proof (map_sum_lookup (value_size <$> fields) k (value_size x)) as H.
    rewrite lookup_fmap, Hx in H. specialize (H eq_refl). lia.
Qed.

Lemma fmap_list_ext_Forall (f g : value -> value) (items : list value) :
  Forall (fun x => f x = g x) items -> f <$> items = g <$> items.
Proof. induction 1; cbn; congruence. Qed.

Lemma fmap_map_ext_Forall (f g : value -> value) (fields : gmap string value) :
  map_Forall (fun _ x => f x = g x) fields -> f <$> fields = g <$> fields.
Proof.
  intros H. apply map_eq. intros k. rewrite !lookup_fmap.
  destruct (fields !! k) as [x|] eqn:Hk; [|done]. cbn. f_equal. by eapply H.
Qed.

(** *** Normalisation, continued *)

Lemma sentinel_convert_property (x : value) :
  sentinel (convert_property x) = false.
Proof.
  destruct x as [| | | |s| |]; try done. unfold convert_property, sentinel.
  destruct (String.eqb s "yes") eqn:Hyes; [done|].
  destruct (String.eqb s "no") eqn:Hno; [done|]. cbn. by rewrite Hyes, Hno.
Qed.

Lemma get_path_convert_field (v : value) (p : list step) (x : value) :
  in_field p = true -> get_path p (convertApiResponse v) = Some x ->
  sentinel x = false.
Proof.
  intros Hp. rewrite (proj1 (get_path_convert p v)).
  unfold converted_at. rewrite Hp.
  destruct (get_path p v) as [y|]; [|done]. intros [= <-].
  apply sentinel_convert_property.
Qed.

(** After the normalisation no property of an object, at any depth, holds
    ["yes"] or ["no"]. *)
Theorem convert_leaves_no_sentinel_field (v : value) :
  no_sentinel_field (convertApiResponse v).
Proof. intros p x. apply get_path_convert_field. Qed.

Lemma convert_property_fixed (x : value) :
  sentinel x = false -> convertApiResponse x = x -> convert_property x = x.
Proof.
  intros Hx Hfix. destruct x as [| | | |s| |]; try done.
  unfold sentinel in Hx. cbn in Hx. apply orb_false_elim in Hx as [Hyes Hno].
  unfold convert_property. by rewrite Hyes, Hno.
Qed.

Lemma no_sentinel_field_element (items : list value) (i : nat) (x : value) :
  no_sentinel_field (JArray items) -> items !! i = Some x ->
  no_sentinel_field x.
Proof.
  intros H Hi p y Hp Hy. apply (H (Index i :: p)).
  - by rewrite in_field_index.
  - cbn. by rewrite Hi.
Qed.

Lemma no_sentinel_field_property (fields : gmap string value) (k : string)
    (x : value) :
  no_sentinel_field (JObject fields) -> fields !! k = Some x ->
  sentinel x = false /\ no_sentinel_field x.
Proof.
  intros H Hk. split.
  - apply (H [Field k]); [done|]. cbn. by rewrite Hk.
  - intros p y Hp Hy. apply (H (Field k :: p)).
    + rewrite in_field_cons; [done|]. by intros ->.
    + cbn. by rewrite Hk.
Qed.

Lemma convert_fixed_of_no_sentinel_field (v : value) :
  no_sentinel_field v -> convertApiResponse v = v.
Proof.
  induction v as [| | | | |items IH|fields IH] using value_ind_nested;
    try done; intros Hv.
  - rewrite convert_array. f_equal.
    rewrite <- (list_fmap_id items) at 2.
    apply fmap_list_ext_Forall, Forall_lookup. intros i x Hi.
    eapply Forall_lookup_1 in IH; [|done]. apply IH.
    by eapply no_sentinel_field_element.
  - rewrite convert_object. f_equal.
    rewrite <- (map_fmap_id fields) at 2.
    apply fmap_map_ext_Forall. intros k x Hk.
    destruct (no_sentinel_field_property fields k x Hv Hk) as [Hx Hsub].
    apply convert_property_fixed; [done|]. by apply (IH k x Hk).
Qed.

(** The normalisation changes a value exactly when some property of an
    object in it holds ["yes"] or ["no"]. *)
Theorem convert_fixed_iff_no_sentinel_field (v : value) :
  convertApiResponse v = v <-> no_sentinel_field v.
Proof.
  split; [|apply convert_fixed_of_no_sentinel_field].
  intros <- p x. apply get_path_convert_field.
Qed.

Lemma convert_fixed_witness :
  no_sentinel_field
    (JObject {[ "ns" := JArray [JString "yes"];
                "price" := JString "10.98" ]}).
Proof.
  apply (proj1 (convert_fixed_iff_no_sentinel_field
                  (JObject {[ "ns" := JArray [JString "yes"];
                              "price" := JString "10.98" ]}))).
  vm_compute. reflexivity.
Defined.

(** Normalising twice is normalising once. *)
Theorem convert_idempotent (v : value) :
  convertApiResponse (convertApiResponse v) = convertApiResponse v.
Proof.
  apply convert_fixed_of_no_sentinel_field. intros p x.
  apply get_path_convert_field.
Qed.

Lemma get_path_rewrite (p : list step) : forall v,
  get_path p (rewrite_every_string v)
  = rewrite_every_string <$> get_path p v.
Proof.
  induction p as [|s p IH]; intros v; [done|].
  destruct v as [| | | |t|items|fields];
    try (rewrite !get_path_leaf by done; done).
  - rewrite (get_path_leaf s p (JString t)) by done. cbn [rewrite_every_string].
    destruct (String.eqb t "yes"); [by rewrite get_path_leaf|].
    destruct (String.eqb t "no"); by rewrite get_path_leaf.
  - destruct s as [k|i]; [done|]. cbn. rewrite list_lookup_fmap.
    destruct (items !! i) as [x|]; [|done]. cbn. apply IH.
  - destruct s as [k|i]; [|done]. cbn. rewrite lookup_fmap.
    destruct (fields !! k) as [x|]; [|done]. cbn. apply IH.
Qed.

Lemma rewrite_sentinel (x : value) :
  sentinel x = true -> convertApiResponse x <> rewrite_every_string x.
Proof.
  destruct x as [| | | |s| |]; try done. unfold sentinel. cbn.
  destruct (String.eqb s "yes"); [done|]. by destruct (String.eqb s "no").
Qed.

Lemma no_sentinel_element_element (items : list value) (i : nat) (x : value) :
  no_sentinel_element (JArray items) -> items !! i = Some x ->
  no_sentinel_element x.
Proof.
  intros H Hi p y Hp Hy. apply (H (Index i :: p)).
  - by rewrite in_field_index.
  - cbn. by rewrite Hi.
Qed.

Lemma no_sentinel_element_property (fields : gmap string value) (k : string)
    (x : value) :
  no_sentinel_element (JObject fields) -> fields !! k = Some x ->
  forall p y, p <> [] -> in_field p = false -> get_path p x = Some y ->
              sentinel y = false.
Proof.
  intros H Hk p y Hne Hp Hy. apply (H (Field k :: p)).
  - by rewrite in_field_cons.
  - cbn. by rewrite Hk.
Qed.

(** The normalisation is the rewriting of every ["yes"] and ["no"] string,
    as the specification words it, exactly on the values in which no such
    string is an element of an array or the value itself. *)
Theorem convert_is_full_rewrite_iff (v : value) :
  convertApiResponse v = rewrite_every_string v <-> no_sentinel_element v.
Proof.
  split.
  { intros Heq p x Hp Hx. destruct (sentinel x) eqn:Hs; [|done].
    exfalso. apply (rewrite_sentinel x Hs).
    assert (H : get_path p (convertApiResponse v)
                = get_path p (rewrite_every_string v)) by (by rewrite Heq).
    rewrite (proj1 (get_path_convert p v)), get_path_rewrite, Hx in H.
    unfold converted_at in H. rewrite Hp in H. by injection H. }
  induction v as [| | | |s|items IH|fields IH] using value_ind_nested;
    try done; intros Hv.
  - specialize (Hv [] (JString s) eq_refl eq_refl).
    unfold sentinel in Hv. cbn in Hv. apply orb_false_elim in Hv as [Hyes Hno].
    cbn. by rewrite Hyes, Hno.
  - rewrite convert_array. cbn [rewrite_every_string]. f_equal.
    apply fmap_list_ext_Forall, Forall_lookup. intros i x Hi.
    eapply Forall_lookup_1 in IH; [|done]. apply IH.
    by eapply no_sentinel_element_element.
  - rewrite convert_object. cbn [rewrite_every_string]. f_equal.
    apply fmap_map_ext_Forall. intros k x Hk.
    pose proof (no_sentinel_element_property fields k x Hv Hk) as Hsub.
    destruct x as [| | | |s|items|sub]; try done.
    + apply (IH k _ Hk). intros p y Hp Hy.
      destruct p as [|st p]; [by injection Hy as <-|].
      by apply (Hsub (st :: p)).
    + apply (IH k _ Hk). intros p y Hp Hy.
      destruct p as [|st p]; [by injection Hy as <-|].
      by apply (Hsub (st :: p)).
Qed.

Lemma convert_is_full_rewrite_witness :
  no_sentinel_element check_domain_response.
Proof.
  apply (proj1 (convert_is_full_rewrite_iff check_domain_response)).
  vm_compute. reflexivity.
Defined.

(** *** The pipeline, continued *)

Lemma catch_block_class (error : thrown) :
  (cls (catch_block error) = Error
   \/ cls (catch_block error) = PorkbunAuthError
   \/ cls (catch_block error) = PorkbunRateLimitError)
  /\ name (catch_block error) <> "AbortError".
Proof.
  destruct error as [e|x]; [|by split; [left|]]. unfold catch_block.
  destruct (String.eqb_spec (name e) "AbortError") as [|Hname];
    [by split; [left|]|].
  destruct (instanceof e PorkbunAuthError || instanceof e PorkbunRateLimitError)
    eqn:Hinst; [|by split; [left|]].
  split; [|done]. unfold instanceof in Hinst.
  destruct (cls e); cbn in Hinst; try done; auto.
Qed.

Lemma try_block_never (fetched : fetch_result) :
  try_block fetched = Never
  <-> exists response, fetched = Resolves response
                       /\ ok response = true
                       /\ body response = BodyStalls.
Proof.
  split.
  - destruct fetched as [response|t]; [|done]. unfold try_block.
    destruct (ok response) eqn:Hok; cbn;
      [|by destruct (status response =? 403)%N].
    destruct (body response) as [result|t|] eqn:Hbody; [|done|by eauto].
    destruct (member result "status") as [st|t|] eqn:Hst; cbn;
      [|done|by destruct result].
    destruct (JS.is_string st "ERROR"); [|done].
    destruct (member result "message") as [msg|t|] eqn:Hmsg; cbn;
      [|done|by destruct result].
    by destruct msg as [| | | |m|items|sub]; cbn;
      repeat match goal with |- context [if ?c then _ else _] => destruct c end.
  - intros (response & -> & Hok & Hbody). unfold try_block.
    by rewrite Hok, Hbody.
Qed.

(** A pipeline call rejects only with an error object of class [Error],
    [PorkbunAuthError] or [PorkbunRateLimitError] whose name is not
    "AbortError": no error of the host and no thrown value that is not an
    error reaches the caller as it is.  The call stays unsettled exactly
    when a 2xx response arrived before the timer fired and its body never
    finishes arriving: the timer is cleared before the body is read. *)
Theorem makeRequest_rejects_with_own_errors (this : PorkbunClient)
    (net : network) (endpoint : string) (data : gmap string value) :
  (forall t, makeRequest this net endpoint data = Rejected t ->
     exists e, t = ThrowError e
               /\ (cls e = Error \/ cls e = PorkbunAuthError
                   \/ cls e = PorkbunRateLimitError)
               /\ name e <> "AbortError")
  /\ (makeRequest this net endpoint data = Pending
      <-> exists response,
            fetched this net endpoint data = Resolves response
            /\ ok response = true
            /\ body response = BodyStalls).
Proof.
  rewrite <- try_block_never, makeRequest_unfold.
  destruct (try_block (fetched this net endpoint data)) as [v|error|];
    split; try done.
  intros t [= <-]. eexists. split; [done|]. apply catch_block_class.
Qed.

Lemma makeRequest_rejects_witness :
  exists e,
    makeRequest example_client unreachable "/ping" ∅ = Rejected (ThrowError e)
    /\ cls e = Error.
Proof.
  destruct (makeRequest_rejects_with_own_errors example_client unreachable
              "/ping" ∅) as [H _].
  destruct (H (ThrowError (new_Error (JString
                 "API request failed: fetch failed"))) eq_refl)
    as (e & He & _ & _).
  exists e. split; [by rewrite <- He|]. by injection He as <-.
Defined.

Lemma is_string_spec (v : value) (text : string) :
  JS.is_string v text = true <-> v = JString text.
Proof.
  destruct v as [| | | |s| |]; cbn; try (split; done).
  rewrite String.eqb_eq. split; congruence.
Qed.

Lemma member_status (result : value) :
  result <> JNull -> result <> JUndefined ->
  member result "status" = Ok (default JUndefined (own_property result "status")).
Proof. by destruct result. Qed.

Lemma makeRequest_fulfilled_inv (this : PorkbunClient) (net : network)
    (endpoint : string) (data : gmap string value) (v : value) :
  makeRequest this net endpoint data = Fulfilled v ->
  exists response result,
    fetched this net endpoint data = Resolves response
    /\ ok response = true
    /\ body response = BodyJson result
    /\ result <> JNull /\ result <> JUndefined
    /\ own_property result "status" <> Some (JString "ERROR")
    /\ v = convertApiResponse (delete_member result "status").
Proof.
  rewrite makeRequest_unfold.
  - destruct (fetched this net endpoint data) as [response|]; [|done].
    unfold try_block. destruct (ok response) eqn:Hok; cbn;
      [|by destruct (status response =? 403)%N].
    destruct (body response) as [result| |] eqn:Hbody; [|done|done].
    assert (Hcase : result = JNull \/ result = JUndefined
                    \/ (result <> JNull /\ result <> JUndefined))
      by (destruct result; auto).
    destruct Hcase as [->|[->|[Hnull Hundef]]]; [done|done|].
    rewrite member_status by done. cbn.
    destruct (JS.is_string _ "ERROR") eqn:Herr.
    { destruct (member result "message") as [msg| |]; [|done|done]. cbn.
      by destruct (mentions_limit msg) as [[|]| |]. }
    intros [= <-]. exists response, result. repeat split; try done.
    intros Hst. rewrite Hst in Herr. done.
Qed.

(** A pipeline call succeeds exactly on a 2xx response whose body parses to
    a JSON value other than [null] that is not an object with the status
    ["ERROR"]; the result is then the normalised body without its top-level
    [status]. *)
Theorem makeRequest_fulfilled_iff (this : PorkbunClient) (net : network)
    (endpoint : string) (data : gmap string value) (v : value) :
  makeRequest this net endpoint data = Fulfilled v
  <-> exists response result,
        fetched this net endpoint data = Resolves response
        /\ ok response = true
        /\ body response = BodyJson result
        /\ result <> JNull /\ result <> JUndefined
        /\ own_property result "status" <> Some (JString "ERROR")
        /\ v = convertApiResponse (delete_member result "status").
Proof.
  split; [apply makeRequest_fulfilled_inv|]. rewrite makeRequest_unfold.
  - intros (response & result & -> & Hok & Hbody & Hnull & Hundef & Hst & ->).
    unfold try_block. rewrite Hok, Hbody. cbn.
    rewrite member_status by done. cbn.
    destruct (JS.is_string _ "ERROR") eqn:Herr; [|done].
    apply is_string_spec in Herr.
    destruct (own_property result "status") as [st|]; [|done].
    cbn in Herr. by subst st.
Qed.

Lemma makeRequest_fulfilled_witness :
  exists response result,
    fetched example_client (respond 80 200 "OK" check_domain_response)
      "/domain/checkDomain/example.com" ∅ = Resolves response
    /\ body response = BodyJson result
    /\ own_property result "status" <> Some (JString "ERROR").
Proof.
  destruct (proj1 (makeRequest_fulfilled_iff example_client
                     (respond 80 200 "OK" check_domain_response)
                     "/domain/checkDomain/example.com" ∅
                     (convertApiResponse
                        (delete_member check_domain_response "status")))
              eq_refl)
    as (response & result & Hf & _ & Hb & _ & _ & Hs & _).
  by exists response, result.
Defined.

(** In the result of a successful call every field of the body other than
    the top-level [status] is there, normalised, with all that is below it:
    a [status] field of a nested object stays. *)
Theorem makeRequest_result_fields (this : PorkbunClient) (net : network)
    (endpoint : string) (data : gmap string value) (response : response)
    (fields : gmap string value) (v : value) :
  fetched this net endpoint data = Resolves response ->
  body response = BodyJson (JObject fields) ->
  makeRequest this net endpoint data = Fulfilled v ->
  forall k p, k <> "status" ->
    get_path (Field k :: p) v
    = converted_at (Field k :: p) <$> get_path (Field k :: p) (JObject fields).
Proof.
  intros Hfetch Hbody Hv k p Hk.
  apply makeRequest_fulfilled_inv in Hv
    as (response' & result & Hfetch' & _ & Hbody' & _ & _ & _ & ->).
  rewrite Hfetch in Hfetch'. injection Hfetch' as <-.
  rewrite Hbody in Hbody'. injection Hbody' as <-.
  rewrite (proj1 (get_path_convert (Field k :: p) _)). cbn.
  by rewrite lookup_delete_ne.
Qed.

Lemma makeRequest_result_fields_witness :
  get_path [Field "response"; Field "avail"]
    (convertApiResponse (delete_member check_domain_response "status"))
  = Some (JBool true).
Proof.
  apply (makeRequest_result_fields example_client
           (respond 80 200 "OK" check_domain_response)
           "/domain/checkDomain/example.com" ∅
           {| status := 200; statusText := "OK";
              body := BodyJson check_domain_response |}
           {[ "status" := JString "SUCCESS";
              "response" := JObject {[ "avail" := JString "yes";
                                       "price" := JString "10.98" ]};
              "limits" := JObject {[ "TTL" := JString "10";
                                     "limit" := JString "1";
                                     "used" := JNumber 1;
                                     "naturalLanguage" :=
                                       JString "1 of 1 used" ]} ]}
           _ eq_refl eq_refl eq_refl "response" [Field "avail"]).
  discriminate.
Defined.

(** When the fetch, or the reading of the body of a 2xx response, rejects
    with an error that is not named "AbortError" and is none of the two
    Porkbun errors, the call fails with a plain [Error] whose message is
    "API request failed: " and the message of that error; when it rejects
    with a value that is not an error, with "Unknown error occurred". *)
Theorem makeRequest_wraps_host_failures (this : PorkbunClient)
    (net : network) (endpoint : string) (data : gmap string value)
    (t : thrown) :
  fetched this net endpoint data = Rejects t
  \/ (exists response, fetched this net endpoint data = Resolves response
                       /\ ok response = true
                       /\ body response = BodyRejects t) ->
  (forall e, t = ThrowError e ->
     name e <> "AbortError" ->
     instanceof e PorkbunAuthError = false ->
     instanceof e PorkbunRateLimitError = false ->
     makeRequest this net endpoint data
     = Rejected (ThrowError
                   (new_Error (JString ("API request failed: " +:+ message e)))))
  /\ (forall x, t = ThrowValue x ->
     makeRequest this net endpoint data
     = Rejected (ThrowError (new_Error (JString "Unknown error occurred")))).
Proof.
  intros Hsource.
  assert (Htry : try_block (fetched this net endpoint data) = Throw t).
  { destruct Hsource as [-> |(response & -> & Hok & Hbody)]; [done|].
    unfold try_block. by rewrite Hok, Hbody. }
  rewrite makeRequest_unfold, Htry. split.
  - intros e -> Hname Hauth Hrate. cbn.
    apply String.eqb_neq in Hname. by rewrite Hname, Hauth, Hrate.
  - by intros x ->.
Qed.

Lemma makeRequest_wraps_witness :
  makeRequest example_client unreachable "/ping" ∅
  = Rejected (ThrowError
                (new_Error (JString "API request failed: fetch failed"))).
Proof.
  destruct (makeRequest_wraps_host_failures example_client unreachable
              "/ping" ∅ (ThrowError (new_TypeError "fetch failed"))
              (or_introl eq_refl)) as [H _].
  apply (H (new_TypeError "fetch failed") eq_refl); [discriminate|done|done].
Defined.

(** Whatever JSON a response carries, the error a pipeline call fails with
    has no [limits]: reading the field gives [undefined]. *)
Theorem makeRequest_error_limits_undefined (this : PorkbunClient)
    (net : network) (endpoint : string) (data : gmap string value)
    (response : response) (result : value) (e : js_error) :
  fetched this net endpoint data = Resolves response ->
  body response = BodyJson result ->
  makeRequest this net endpoint data = Rejected (ThrowError e) ->
  limits e = JUndefined.
Proof.
  intros Hfetch Hbody. rewrite makeRequest_unfold, Hfetch. unfold try_block.
  destruct (ok response); cbn.
  - rewrite Hbody.
    destruct (member result "status") as [st|terr|] eqn:Hst; cbn; [| |done].
    + destruct (JS.is_string st "ERROR"); [|done].
      destruct (member result "message") as [msg|terr|] eqn:Hmsg; cbn;
        [| |done].
      * destruct (mentions_limit msg) as [[|]|terr|] eqn:Hlim; cbn;
          try (by intros [= <-]).
        destruct msg; try discriminate Hlim; injection Hlim as <-;
          by intros [= <-].
      * destruct result; try discriminate Hmsg; injection Hmsg as <-;
          by intros [= <-].
    + destruct result; try discriminate Hst; injection Hst as <-;
        by intros [= <-].
  - destruct (status response =? 403)%N; by intros [= <-].
Qed.

Lemma makeRequest_error_limits_witness :
  limits (new_PorkbunRateLimitError (JString "rate limit exceeded") JUndefined)
  = JUndefined.
Proof.
  apply (makeRequest_error_limits_undefined example_client
           (respond 80 200 "OK" rate_limit_envelope)
           "/domain/checkDomain/example.com" ∅
           {| status := 200; statusText := "OK";
              body := BodyJson rate_limit_envelope |}
           rate_limit_envelope); reflexivity.
Defined.

Lemma timer_delay_mono (t t' : Z) :
  t <= t' -> t' <= 2147483647 -> timer_delay t <= timer_delay t'.
Proof.
  intros Hle Hmax. unfold timer_delay.
  destruct (Z.leb_spec 1 t), (Z.leb_spec t 2147483647),
    (Z.leb_spec 1 t'), (Z.leb_spec t' 2147483647); cbn; lia.
Qed.

(** A longer timeout, up to the 2^31-1 ms that a timer can wait, changes
    nothing for a call that did not time out: between two clients that
    differ at most in their timeout, the one with the longer timeout gets
    the outcome of the other unless that outcome is the timeout error. *)
Theorem longer_timeout_keeps_outcome (this this' : PorkbunClient)
    (net : network) (endpoint : string) (data : gmap string value) :
  priv_apiKey this' = priv_apiKey this ->
  priv_secretKey this' = priv_secretKey this ->
  priv_baseUrl this' = priv_baseUrl this ->
  priv_timeout this <= priv_timeout this' ->
  priv_timeout this' <= 2147483647 ->
  makeRequest this net endpoint data
    <> Rejected (ThrowError (new_Error (JString "Request timeout"))) ->
  makeRequest this' net endpoint data = makeRequest this net endpoint data.
Proof.
  intros Hkey Hsecret Hurl Hle Hmax Hout.
  pose proof (timer_delay_mono _ _ Hle Hmax) as Hdelay.
  rewrite !makeRequest_unfold in *. unfold fetched in *.
  assert (Hreq : build_request this' endpoint data
                 = build_request this endpoint data).
  { unfold build_request, getAuth. by rewrite Hkey, Hsecret, Hurl. }
  rewrite Hreq.
  destruct (net (build_request this endpoint data)) as [after r|];
    [|done].
  unfold fetch_with_signal, timer_fires in *.
  destruct (Z.ltb_spec (timer_delay (priv_timeout this)) after) as [Hlt|Hge];
    [done|].
  destruct (Z.ltb_spec (timer_delay (priv_timeout this')) after)
    as [Hlt'|Hge']; [lia|done].
Qed.

Lemma longer_timeout_witness :
  makeRequest
    (constructor {| apiKey := "pk1_key"; secretKey := "sk1_secret";
                    baseUrl := None; timeout := Some 60000 |})
    (respond 80 200 "OK" check_domain_response) "/ping" ∅
  = makeRequest example_client
      (respond 80 200 "OK" check_domain_response) "/ping" ∅.
Proof.
  apply longer_timeout_keeps_outcome;
    [reflexivity|reflexivity|reflexivity|vm_compute; discriminate
    |vm_compute; discriminate|].
  vm_compute. discriminate.
Defined.

(** *** The operations, continued *)

(** When the network never settles a fetch, [getPricing], which arms no
    timer, never settles, while every other operation is cut off by its
    timer and fails with "Request timeout". *)
Theorem hung_network_outcomes (this : PorkbunClient) (net : network) :
  (forall req, net req = Hangs) ->
  call this net GetPricing = Pending
  /\ forall op, op <> GetPricing ->
       call this net op
       = Rejected (ThrowError (new_Error (JString "Request timeout"))).
Proof.
  intros Hnet. split.
  - cbn. unfold getPricing. by rewrite Hnet.
  - intros op Hop.
    destruct (call_routes this op Hop) as (endpoint & data & Hroute).
    eapply call_rejected; [done|].
    rewrite makeRequest_unfold. unfold fetched. by rewrite Hnet.
Qed.

Lemma hung_network_witness :
  call example_client (fun _ => Hangs) GetPricing = Pending
  /\ call example_client (fun _ => Hangs) (CheckDomain "example.com")
     = Rejected (ThrowError (new_Error (JString "Request timeout"))).
Proof.
  destruct (hung_network_outcomes example_client (fun _ => Hangs)
              (fun _ => eq_refl)) as [Hpricing Hother].
  split; [exact Hpricing|]. apply Hother. discriminate.
Defined.

(** Every failure of [getPricing] is a plain [Error] whose message starts
    with "Failed to get pricing: ".  On a response that is not 2xx, 403
    included, the message goes on with "HTTP ", the status and the status
    text: [getPricing] raises no authentication error. *)
Theorem getPricing_failures (this : PorkbunClient) (net : network) :
  (forall t, getPricing this net = Rejected t ->
     exists m, t = ThrowError
                     (new_Error (JString ("Failed to get pricing: " +:+ m))))
  /\ (forall after response,
        net (pricing_request this) = Settles after (Resolves response) ->
        ok response = false ->
        getPricing this net
        = Rejected (ThrowError (new_Error (JString
            ("Failed to get pricing: HTTP " +:+ pretty (status response)
               +:+ ": " +:+ statusText response))))).
Proof.
  unfold getPricing. fold (pricing_request this). split.
  - intros t.
    destruct (net (pricing_request this)) as [after [response|t']|];
      [| |done].
    + destruct (negb (ok response)); [intros [= <-]; by eexists|].
      destruct (body response); [done| |done]. intros [= <-]. by eexists.
    + intros [= <-]. by eexists.
  - intros after response -> Hok. by rewrite Hok.
Qed.

Lemma getPricing_failures_witness :
  getPricing example_client (respond 80 403 "Forbidden" JNull)
  = Rejected (ThrowError (new_Error (JString
      "Failed to get pricing: HTTP 403: Forbidden"))).
Proof.
  destruct (getPricing_failures example_client
              (respond 80 403 "Forbidden" JNull)) as [_ H].
  apply (H 80 {| status := 403; statusText := "Forbidden";
                 body := BodyJson JNull |}); reflexivity.
Defined.







Lemma convert_property_yes_no (x : value) :
  convert_property (yes_no x) = JBool (JS.truthy x).
Proof. unfold yes_no. by destruct (JS.truthy x). Qed.

(** [listDomains] sends the options as they are when they have no
    [includeLabels] (or an [undefined] one).  Any other [includeLabels] is
    sent as ["yes"] when truthy and as ["no"] otherwise, [null] included,
    the other options staying as they are; the normalisation of responses
    maps the string sent back to that truth value. *)
Theorem listDomains_payload (this : PorkbunClient) (net : network)
    (options : gmap string value) :
  (JS.prop options "includeLabels" = JUndefined ->
   listDomains this net (Some options)
   = makeRequest this net "/domain/listAll" options)
  /\ (forall x, options !! "includeLabels" = Some x -> x <> JUndefined ->
      listDomains this net (Some options)
      = makeRequest this net "/domain/listAll"
          (<[ "includeLabels" := yes_no x ]> options)
      /\ convert_property (yes_no x) = JBool (JS.truthy x))
  /\ listDomains this net None = makeRequest this net "/domain/listAll" ∅.
Proof.
  unfold listDomains, spread. cbn. split; [|split].
  - intros ->. cbn. by rewrite (left_id_L ∅ (∪)).
  - intros x Hx Hdef. split; [|apply convert_property_yes_no].
    unfold JS.prop. rewrite Hx. cbn.
    destruct x; try done; by rewrite insert_union_singleton_l.
  - unfold JS.prop. rewrite lookup_empty. cbn. by rewrite (left_id_L ∅ (∪)).
Qed.

Lemma listDomains_payload_witness :
  listDomains example_client (respond 80 200 "OK" (JObject ∅))
    (Some {[ "start" := JString "1000"; "includeLabels" := JBool true ]})
  = makeRequest example_client (respond 80 200 "OK" (JObject ∅))
      "/domain/listAll"
      (<[ "includeLabels" := yes_no (JBool true) ]>
         {[ "start" := JString "1000"; "includeLabels" := JBool true ]}).
Proof.
  destruct (listDomains_payload example_client
              (respond 80 200 "OK" (JObject ∅))
              {[ "start" := JString "1000"; "includeLabels" := JBool true ]})
    as (_ & H & _).
  apply (H (JBool true)); [reflexivity|discriminate].
Defined.

(** [addURLForward] always sends both flags: [includePath] and [wildcard]
    are ["yes"] or ["no"] by the truthiness of the option, ["no"] when the
    option is missing; every other option is sent as it is. *)
Theorem addURLForward_payload (this : PorkbunClient) (domain : string)
    (options : gmap string value) :
  exists data,
    (forall net,
       addURLForward this net domain options
       = discard (makeRequest this net
                    ("/domain/addUrlForward/" +:+ domain) data))
    /\ data !! "includePath" = Some (yes_no (JS.prop options "includePath"))
    /\ data !! "wildcard" = Some (yes_no (JS.prop options "wildcard"))
    /\ (options !! "includePath" = None ->
        data !! "includePath" = Some (JString "no"))
    /\ (options !! "wildcard" = None ->
        data !! "wildcard" = Some (JString "no"))
    /\ forall k, k <> "includePath" -> k <> "wildcard" ->
         data !! k = options !! k.
Proof.
  eexists. split; [intros net; reflexivity|].
  assert (Hpath : forall data : gmap string value,
            (<[ "wildcard" := yes_no (JS.prop options "wildcard") ]>
               (<[ "includePath" := yes_no (JS.prop options "includePath") ]>
                  data)) !! "includePath"
            = Some (yes_no (JS.prop options "includePath"))).
  { intros data. rewrite lookup_insert_ne by done.
    by rewrite lookup_insert_eq. }
  repeat split.
  - apply Hpath.
  - by rewrite lookup_insert_eq.
  - intros Hnone. rewrite Hpath. unfold JS.prop. by rewrite Hnone.
  - intros Hnone. rewrite lookup_insert_eq. unfold JS.prop. by rewrite Hnone.
  - intros k Hk1 Hk2. by rewrite !lookup_insert_ne.
Qed.

Lemma addURLForward_payload_witness :
  exists data : gmap string value,
    data !! "includePath" = Some (JString "no")
    /\ data !! "location" = Some (JString "https://example.org").
Proof.
  destruct (addURLForward_payload example_client "example.com"
              {[ "location" := JString "https://example.org";
                 "wildcard" := JBool true ]})
    as (data & _ & _ & _ & Hpath & _ & Hother).
  exists data. split; [apply Hpath; reflexivity|].
  rewrite Hother by discriminate. reflexivity.
Defined.

Lemma convert_leaves_no_sentinel_witness : sentinel (JBool true) = false.
Proof.
  apply (convert_leaves_no_sentinel_field check_domain_response
           [Field "response"; Field "avail"] (JBool true)); reflexivity.
Defined.
